(** * pyextinction: dust extinction laws and their mixtures

    A shallow embedding of [pyextinction/helpers.py], [extinction.py],
    [cardelli.py], [calzetti.py], [gordon.py] and [fitzpatrick.py].

    Conventions of the embedding.
    - A Python [float] is a real number: rounding and overflow are
      idealised away, and the real [0] stands for the float [0.0].
    - Python's own float division raises [ZeroDivisionError] on a zero
      divisor; it is modelled by [py_div], which returns in [result].
    - numpy's element-wise division does not raise: a zero divisor yields
      [inf] or [nan].  An array element is therefore an [npfloat], an
      optional real, where [None] stands for a non-finite value.  Non-finite
      values propagate through [+] and [*] with finite operands.
    - A wavelength is a Python float or a one-dimensional array of floats,
      bare or tagged with a length unit. *)

From Stdlib Require Import Reals Lra Lia List String Bool Arith.
Import ListNotations.
Open Scope R_scope.

(** ** Exceptions and fallible computations *)

Inductive exn : Type :=
| ValueError
| TypeError
| ZeroDivisionError
| NotImplementedError
| AttributeError.

Inductive result (A : Type) : Type :=
| Ok (a : A)
| Raise (e : exn).

Arguments Ok {A} a.
Arguments Raise {A} e.

Definition bind {A B : Type} (m : result A) (k : A -> result B) : result B :=
  match m with
  | Ok a => k a
  | Raise e => Raise e
  end.

Notation "x <- m ;; k" := (bind m (fun x => k))
  (at level 61, m at next level, right associativity).

(** ** Python floats *)

Definition fle (x y : R) : bool := if Rle_dec x y then true else false.
Definition flt (x y : R) : bool := if Rlt_dec x y then true else false.
Definition feq (x y : R) : bool := if Req_dec_T x y then true else false.

Infix "<=?" := fle (at level 70, no associativity) : R_scope.
Infix "<?" := flt (at level 70, no associativity) : R_scope.

Definition fge (x y : R) : bool := fle y x.
Definition fgt (x y : R) : bool := flt y x.
Infix ">=?" := fge (at level 70, no associativity) : R_scope.
Infix ">?" := fgt (at level 70, no associativity) : R_scope.

(** [a / b] on two Python floats. *)
Definition py_div (a b : R) : result R :=
  if feq b 0 then Raise ZeroDivisionError else Ok (a / b).

(** ** numpy array elements *)

Definition npfloat : Type := option R.

Definition np_add (a b : npfloat) : npfloat :=
  match a, b with
  | Some x, Some y => Some (x + y)
  | _, _ => None
  end.

Definition np_mul (a b : npfloat) : npfloat :=
  match a, b with
  | Some x, Some y => Some (x * y)
  | _, _ => None
  end.

(** Element-wise [a / b]: a zero divisor gives [inf] or [nan]. *)
Definition np_div (a b : npfloat) : npfloat :=
  match a, b with
  | Some x, Some y => if feq y 0 then None else Some (x / y)
  | _, _ => None
  end.

(** [1.e4 / _lamb] and the like, element by element: [c / l] with a numpy
    divisor.  [None] is the [+inf] obtained at a zero wavelength. *)
Definition np_rdiv (c l : R) : option R :=
  if feq l 0 then None else Some (c / l).

Definition ndarray : Type := list npfloat.

(** [s * arr] for a Python float [s]. *)
Definition np_scale (s : R) (arr : ndarray) : ndarray :=
  map (np_mul (Some s)) arr.

(** [arr1 + arr2] on arrays of one size. *)
Definition np_add_arr (a b : ndarray) : ndarray :=
  map (fun p => np_add (fst p) (snd p)) (combine a b).

(** ** Wavelength values and units *)

Inductive pyval : Type :=
| PyFloat (r : R)
| NdArray (data : list R).

(** numpy's [np.shape]. *)
Definition shape (v : pyval) : list nat :=
  match v with
  | PyFloat _ => []
  | NdArray data => [List.length data]
  end.

Definition ndarray_shape (a : ndarray) : list nat := [List.length a].

(** A small table of length units, used to run the model on examples. *)
Inductive si_length : Type := si_angstrom | si_nanometer | si_micrometer.

Definition si_in_angstrom (u : si_length) : R :=
  match u with
  | si_angstrom => 1
  | si_nanometer => 10
  | si_micrometer => 1e4
  end.

Definition si_convert (src dst : si_length) : R :=
  si_in_angstrom src / si_in_angstrom dst.

(** An interpolant that ignores its knots, used to run the model on
    examples whose result does not depend on the spline. *)
Definition flat_spline (xs ys : list R) (x : R) : R := 0.

Section Laws.

(** Modelled from the spec: the unit subsystem [ezunits] ([hasUnit],
    [unit[...]], [Quantity.to], [Quantity.magnitude]) is not among the
    sources.  A quantity is a magnitude tagged with a length unit, and
    converting it rescales the magnitude by a factor that is [1] between a
    unit and itself. *)
Variable length_unit : Type.
Variable angstrom : length_unit.
Variable convert : length_unit -> length_unit -> R.
Hypothesis convert_same : forall u, convert u u = 1.

(** [interpolate.splev(x, interpolate.splrep(xs, ys, k=3))] of scipy: the
    cubic spline through the knots [(xs, ys)], evaluated at [x]. *)
Variable cubic_spline : list R -> list R -> R -> R.

Record Quantity : Type := { magnitude : pyval; units : length_unit }.

Inductive wavelength : Type :=
| Unitless (v : pyval)
| WithUnit (q : Quantity).

Definition rescale (f : R) (v : pyval) : pyval :=
  match v with
  | PyFloat r => PyFloat (r * f)
  | NdArray data => NdArray (map (fun r => r * f) data)
  end.

Definition Quantity_to (q : Quantity) (u : length_unit) : Quantity :=
  {| magnitude := rescale (convert (units q) u) (magnitude q); units := u |}.

(** helpers.py, [val_in_unit]: the two cases are those of the test
    [hasUnit(value)].  The advisory warning issued for a bare value has no
    effect on the result and is not modelled. *)
Definition val_in_unit (varname : string) (value : wavelength)
    (defaultunit : length_unit) : Quantity :=
  match value with
  | Unitless v => {| magnitude := v; units := defaultunit |}
  | WithUnit q => Quantity_to q defaultunit
  end.

(** The common prologue of the four laws: a float becomes a one-element
    array, an array is taken as it is. *)
Definition as_array (m : pyval) : list R :=
  match m with
  | PyFloat r => [r]
  | NdArray data => data
  end.

Definition lamb_angstrom (lamb : wavelength) : list R :=
  as_array (magnitude (val_in_unit "lamb"%string lamb angstrom)).

(** ** cardelli.py *)

(** The coefficients [a] and [b] at one wavenumber, through the successive
    masked assignments of the source. *)
Definition cardelli_ab (x : option R) : R * R :=
  match x with
  | None => (0, 0)
  | Some x =>
    let a := 0 in
    let b := 0 in
    (* Infrared *)
    let ind := (x >=? 0.3) && (x <? 1.1) in
    let a := if ind then 0.574 * Rpower x 1.61 else a in
    let b := if ind then -0.527 * Rpower x 1.61 else b in
    (* Optical and near IR *)
    let ind := (x >=? 1.1) && (x <=? 3.3) in
    let y := x - 1.82 in
    let a := if ind then 1 + 0.17699 * y - 0.50447 * y ^ 2 - 0.02427 * y ^ 3
                         + 0.72085 * y ^ 4 + 0.01979 * y ^ 5
                         - 0.77530 * y ^ 6 + 0.32999 * y ^ 7 else a in
    let b := if ind then 1.41338 * y + 2.28305 * y ^ 2 + 1.07233 * y ^ 3
                         - 5.38434 * y ^ 4 - 0.62251 * y ^ 5
                         + 5.30260 * y ^ 6 - 2.09002 * y ^ 7 else b in
    (* UV *)
    let ind := (x >=? 3.3) && (x <=? 8.0) in
    let a := if ind then 1.752 - 0.316 * x
                         - 0.104 / ((x - 4.67) ^ 2 + 0.341) else a in
    let b := if ind then -3.090 + 1.825 * x
                         + 1.206 / ((x - 4.62) ^ 2 + 0.263) else b in
    let ind := (x >=? 5.9) && (x <=? 8.0) in
    let Fa := -0.04473 * (x - 5.9) ^ 2 - 0.009779 * (x - 5.9) ^ 3 in
    let Fb := 0.21300 * (x - 5.9) ^ 2 + 0.120700 * (x - 5.9) ^ 3 in
    let a := if ind then a + Fa else a in
    let b := if ind then b + Fb else b in
    (* Far UV *)
    let ind := (x >=? 8.0) && (x <=? 10.0) in
    let a := if ind then -1.073 - 0.628 * (x - 8) + 0.137 * ((x - 8) ^ 2)
                         - 0.070 * (x - 8) ^ 3 else a in
    let b := if ind then 13.670 + 4.257 * (x - 8) + 0.420 * ((x - 8) ^ 2)
                         + 0.374 * (x - 8) ^ 3 else b in
    (* x out of range [0.3, 10.0] *)
    let ind := (x >? 10.0) || (x <? 0.3) in
    let a := if ind then 0 else a in
    let b := if ind then 0 else b in
    (a, b)
  end.

(** One element of the returned vector. *)
Definition cardelli_value (Av Rv : R) (Alambda : bool) (l : R) : npfloat :=
  let '(a, b) := cardelli_ab (np_rdiv 1e4 l) in
  let e := np_add (Some a) (np_div (Some b) (Some Rv)) in
  if Alambda then np_mul e (Some Av)
  else np_mul (np_mul (Some (0.4 * ln 10)) e) (Some Av).

Definition Cardelli_function (lamb : wavelength) (Av Rv : R)
    (Alambda : bool) : ndarray :=
  map (cardelli_value Av Rv Alambda) (lamb_angstrom lamb).

(** ** calzetti.py *)

(** [k] at one wavelength, after [_lamb *= 1e-4].  The wavenumber [x] is
    read only where [_lamb >= 0.0912], where it is finite.  The source
    rescales [_lamb] in place; values are passed here, and what that does to
    an array the caller still holds is not represented. *)
Definition calzetti_k (Rv : R) (l : R) : R :=
  let _lamb := l * 1e-4 in
  let x := 1 / _lamb in
  let k := 0 in
  let ind := (_lamb >=? 0.630) && (_lamb <=? 2.2) in
  let k := if ind then 2.659 * (-1.857 + 1.040 * x) + Rv else k in
  let ind := (_lamb >=? 0.0912) && (_lamb <? 0.630) in
  let k := if ind then 2.659 * (-2.156 + 1.509 * x - 0.198 * x ^ 2
                                + 0.011 * x ^ 3) + Rv else k in
  k.

Definition calzetti_value (Rv : R) (Alambda : bool) (l : R) : npfloat :=
  let k := calzetti_k Rv l in
  if Alambda then Some (0.4 * k) else Some (Rpower 10 (0.4 * k)).

Definition Calzetti_function (lamb : wavelength) (Av Rv : R)
    (Alambda : bool) : ndarray :=
  map (calzetti_value Rv Alambda) (lamb_angstrom lamb).

(** ** gordon.py and fitzpatrick.py: shared shape *)

Definition xcutuv : R := 10000.0 / 2700.
Definition xspluv : list R := [10000.0 / 2700; 10000.0 / 2600].

(** The Lorentzian-like UV term
    [c3 * x**2 / ((x**2 - x0**2)**2 + gamma**2 * x**2)]. *)
Definition uv_bump (c3 x0 gamma x : R) : R :=
  c3 * x ^ 2 / ((x ^ 2 - x0 ^ 2) ^ 2 + gamma ^ 2 * x ^ 2).

(** The far-UV correction added where [x >= 5.9]. *)
Definition fuv_term (c4 x : R) : R :=
  c4 * (0.5392 * ((x - 5.9) ^ 2) + 0.05644 * ((x - 5.9) ^ 3)).

(** [x >= c] on an element of the wavenumber array; [+inf] satisfies it. *)
Definition x_ge (x : option R) (c : R) : bool :=
  match x with
  | None => true
  | Some x => x >=? c
  end.

(** The last step of Fitzpatrick99 and Gordon03_SMCBar. *)
Definition scale_by_Av (Av : R) (Alambda : bool) (k : npfloat) : npfloat :=
  if Alambda then np_mul k (Some Av)
  else np_mul (np_mul k (Some Av)) (Some (ln 10 * 0.4)).

(** ** gordon.py *)

(** The constructor: [Rv] defaults to [2.74] and is stored in [self.Rv]. *)
Definition Gordon03_SMCBar_init (Rv : option R) : R :=
  match Rv with
  | None => 2.74
  | Some r => r
  end.

Definition gordon_xsplopir : list R :=
  0.0 :: map (fun w => 1.0 / w)
             [2.198; 1.65; 1.25; 0.81; 0.65; 0.55; 0.44; 0.37].

Definition gordon_ysplopir : list R :=
  [0.0; 0.11; 0.169; 0.25; 0.567; 0.801; 1.00; 1.374; 1.672].

Definition gordon_uv (c1 c2 c3 x0 gamma x : R) : R :=
  1.0 + c1 + (c2 * x) + uv_bump c3 x0 gamma x.

(** [k] at one wavenumber.  The guards [np.size(ind) > 0] of the source only
    skip assignments through an empty index and do not show here.  At
    [x = +inf] the UV term is [inf / inf]. *)
Definition gordon_k (c1 c2 c3 c4 x0 gamma : R) (x : option R) : npfloat :=
  match x with
  | None => None
  | Some x =>
    let yspluv := map (gordon_uv c1 c2 c3 x0 gamma) xspluv in
    let k := 0 in
    let k := if x >=? xcutuv then gordon_uv c1 c2 c3 x0 gamma x else k in
    let k := if x >=? 5.9 then k + fuv_term c4 x else k in
    let k := if x <? xcutuv
             then cubic_spline (gordon_xsplopir ++ xspluv)
                               (gordon_ysplopir ++ yspluv) x
             else k in
    Some k
  end.

(** [self_Rv] is the attribute [self.Rv]; [Rv] is the call's argument. *)
Definition Gordon03_SMCBar_function (self_Rv : R) (lamb : wavelength)
    (Av : R) (Rv : option R) (Alambda : bool) : result ndarray :=
  let _lamb := lamb_angstrom lamb in
  let Rv := match Rv with None => self_Rv | Some r => r end in
  c1 <- py_div (-4.959) Rv ;;
  c2 <- py_div 2.264 Rv ;;
  c3 <- py_div 0.389 Rv ;;
  c4 <- py_div 0.461 Rv ;;
  let x0 := 4.6 in
  let gamma := 1.0 in
  Ok (map (fun l => scale_by_Av Av Alambda
                      (gordon_k c1 c2 c3 c4 x0 gamma (np_rdiv 1e4 l)))
          _lamb).

(** ** fitzpatrick.py *)

Definition fitzpatrick_xsplopir : list R :=
  0.0 :: map (fun w => 10000.0 / w)
             [26500.0; 12200.0; 6000.0; 5470.0; 4670.0; 4110.0].

Definition fitzpatrick_ysplopir (Rv : R) : list R :=
  map (fun v => v * Rv / 3.1) [0.0; 0.26469; 0.82925]
  ++ [ 2.13572e-04 * Rv ^ 2 + 1.00270 * Rv + -4.22809e-01;
       -7.35778e-05 * Rv ^ 2 + 1.00216 * Rv + -5.13540e-02;
       -3.32598e-05 * Rv ^ 2 + 1.00184 * Rv + 7.00127e-01;
       -4.45636e-05 * Rv ^ 4 + 7.97809e-04 * Rv ^ 3 + -5.46959e-03 * Rv ^ 2
         + 1.01707 * Rv + 1.19456 ].

Definition fitzpatrick_uv (c1 c2 c3 x0 gamma x : R) : R :=
  c1 + (c2 * x) + uv_bump c3 x0 gamma x.

(** [k] at one wavenumber.  [has_uv] is [True in ind] for the whole array:
    the source adds [Rv] to the UV spline knots only when some element of
    the input lies in the UV. *)
Definition fitzpatrick_k (Rv c1 c2 c3 c4 x0 gamma : R) (has_uv : bool)
    (x : option R) : npfloat :=
  match x with
  | None => None
  | Some x =>
    let yspluv := map (fitzpatrick_uv c1 c2 c3 x0 gamma) xspluv in
    let k := 0 in
    let ind := x >=? xcutuv in
    let k := if ind then fitzpatrick_uv c1 c2 c3 x0 gamma x else k in
    let k := if x >=? 5.9 then k + fuv_term c4 x else k in
    let k := if ind then k + Rv else k in
    let yspluv := if has_uv then map (fun y => y + Rv) yspluv else yspluv in
    let k := if x <? xcutuv
             then cubic_spline (fitzpatrick_xsplopir ++ xspluv)
                               (fitzpatrick_ysplopir Rv ++ yspluv) x
             else k in
    Some (k / Rv)
  end.

Definition Fitzpatrick99_function (lamb : wavelength) (Av Rv : R)
    (Alambda : bool) : result ndarray :=
  let _lamb := lamb_angstrom lamb in
  q <- py_div 4.717 Rv ;;
  let c2 := -0.824 + q in
  let c1 := 2.030 - 3.007 * c2 in
  let c3 := 3.23 in
  let c4 := 0.41 in
  let x0 := 4.596 in
  let gamma := 0.99 in
  let x := map (np_rdiv 1e4) _lamb in
  let has_uv := existsb (fun xi => x_ge xi xcutuv) x in
  Ok (map (fun xi => scale_by_Av Av Alambda
                       (fitzpatrick_k Rv c1 c2 c3 c4 x0 gamma has_uv xi))
          x).

(** ** extinction.py: the law objects *)

(** The instances of [ExtinctionLaw] and of its subclasses.  A
    [Gordon03_SMCBar] carries its attribute [Rv]; a [MixtureLaw] carries its
    two components and its name. *)
Inductive law : Type :=
| ExtinctionLaw
| Cardelli
| Calzetti
| Fitzpatrick99
| Gordon03_SMCBar (Rv : R)
| MixtureLaw (A B : law) (name : string).

Definition law_name (l : law) : string :=
  match l with
  | ExtinctionLaw => "None"
  | Cardelli => "Cardelli"
  | Calzetti => "Calzetti"
  | Fitzpatrick99 => "Fitzpatrick99"
  | Gordon03_SMCBar _ => "Gordon et al. 2003 SMCBar"
  | MixtureLaw _ _ name => name
  end.

(** [getattr(l, 'Rv', None)]: only Gordon03_SMCBar sets the attribute. *)
Definition Rv_attr (l : law) : option R :=
  match l with
  | Gordon03_SMCBar Rv => Some Rv
  | _ => None
  end.

(** Python values that may be handed to [__add__] or to the constructor of
    a mixture. *)
Inductive pyobj : Type :=
| PyNone
| PyFloatObj (r : R)
| PyStr (s : string)
| PyLaw (l : law).

Inductive pyclass : Type :=
| cls_object
| cls_NoneType
| cls_float
| cls_str
| cls_ExtinctionLaw
| cls_Cardelli
| cls_Calzetti
| cls_Fitzpatrick99
| cls_Gordon03_SMCBar
| cls_MixtureLaw.

Definition class_of (o : pyobj) : pyclass :=
  match o with
  | PyNone => cls_NoneType
  | PyFloatObj _ => cls_float
  | PyStr _ => cls_str
  | PyLaw ExtinctionLaw => cls_ExtinctionLaw
  | PyLaw Cardelli => cls_Cardelli
  | PyLaw Calzetti => cls_Calzetti
  | PyLaw Fitzpatrick99 => cls_Fitzpatrick99
  | PyLaw (Gordon03_SMCBar _) => cls_Gordon03_SMCBar
  | PyLaw (MixtureLaw _ _ _) => cls_MixtureLaw
  end.

Definition class_code (c : pyclass) : nat :=
  match c with
  | cls_object => 0
  | cls_NoneType => 1
  | cls_float => 2
  | cls_str => 3
  | cls_ExtinctionLaw => 4
  | cls_Cardelli => 5
  | cls_Calzetti => 6
  | cls_Fitzpatrick99 => 7
  | cls_Gordon03_SMCBar => 8
  | cls_MixtureLaw => 9
  end%nat.

Definition class_eqb (c d : pyclass) : bool :=
  Nat.eqb (class_code c) (class_code d).

(** The direct base class. *)
Definition class_base (c : pyclass) : option pyclass :=
  match c with
  | cls_object => None
  | cls_NoneType | cls_float | cls_str | cls_ExtinctionLaw => Some cls_object
  | cls_Cardelli | cls_Calzetti | cls_Fitzpatrick99
  | cls_Gordon03_SMCBar | cls_MixtureLaw => Some cls_ExtinctionLaw
  end.

(** [issubclass(c, (d,))]; the hierarchy is two levels deep. *)
Definition issubclass (c d : pyclass) : bool :=
  class_eqb c d
  || match class_base c with
     | None => false
     | Some b =>
       class_eqb b d
       || match class_base b with
          | None => false
          | Some bb => class_eqb bb d
          end
     end.

(** helpers.py, [isNestedInstance].  The source tests
    [hasattr(cl, '__subclasses')], a name no class has, so [tree] stays
    [[cl]]. *)
Definition isNestedInstance (obj : pyobj) (cl : pyclass) : bool :=
  let tree := [cl] in
  existsb (issubclass (class_of obj)) tree.

(** [name or default] on an optional string. *)
Definition name_or (name : option string) (default : string) : string :=
  match name with
  | None => default
  | Some EmptyString => default
  | Some s => s
  end.

(** [MixtureLaw.__init__]. *)
Definition MixtureLaw_init (A B : pyobj) (name : option string) : result law :=
  if negb (isNestedInstance A cls_ExtinctionLaw
           && isNestedInstance B cls_ExtinctionLaw)
  then Raise ValueError
  else match A, B with
       | PyLaw a, PyLaw b =>
         Ok (MixtureLaw a b
               (name_or name ("(" ++ law_name a ++ ", " ++ law_name b ++ ")")))
       | _, _ => Raise AttributeError
       end.

(** [ExtinctionLaw.__add__]. *)
Definition ExtinctionLaw_add (self : law) (other : pyobj) : result law :=
  MixtureLaw_init (PyLaw self) other None.

(** Python's [a + b]: the left operand's [__add__] is tried first; no class
    here defines [__radd__], and [None], floats and strings do not add to a
    law. *)
Definition binary_add (a b : pyobj) : result pyobj :=
  match a, b with
  | PyLaw l, _ => r <- ExtinctionLaw_add l b ;; Ok (PyLaw r)
  | PyFloatObj x, PyFloatObj y => Ok (PyFloatObj (x + y))
  | PyStr s, PyStr t => Ok (PyStr (s ++ t))
  | _, _ => Raise TypeError
  end.

(** ** extinction.py: MixtureLaw *)

(** A Python operand that must be a float: arithmetic on [None] raises
    [TypeError]. *)
Definition need_float (v : option R) : result R :=
  match v with
  | Some r => Ok r
  | None => Raise TypeError
  end.

(** [v if v is not None else getattr(l, 'Rv', None)]. *)
Definition or_attr (v : option R) (l : law) : option R :=
  match v with
  | None => Rv_attr l
  | Some _ => v
  end.

(** [MixtureLaw.get_Rv_A]:
    [1. / (1. / (Rv * f_A) - (1. - f_A) / (f_A * Rv_B))]. *)
Definition get_Rv_A (B : law) (Rv : option R) (f_A : R)
    (Rv_B : option R) : result R :=
  let Rv_B := or_attr Rv_B B in
  Rv <- need_float Rv ;;
  t1 <- py_div 1 (Rv * f_A) ;;
  Rv_B <- need_float Rv_B ;;
  t2 <- py_div (1 - f_A) (f_A * Rv_B) ;;
  py_div 1 (t1 - t2).

(** [MixtureLaw.get_Rv]: [1. / (f_A / Rv_A + (1 - f_A) / Rv_B)]. *)
Definition get_Rv (A B : law) (Rv_A : option R) (f_A : R)
    (Rv_B : option R) : result R :=
  let Rv_B := or_attr Rv_B B in
  let Rv_A := or_attr Rv_A A in
  Rv_A <- need_float Rv_A ;;
  t1 <- py_div f_A Rv_A ;;
  Rv_B <- need_float Rv_B ;;
  t2 <- py_div (1 - f_A) Rv_B ;;
  py_div 1 (t1 + t2).

(** [MixtureLaw.get_Rv_B]: [(1. - f_A) / (1. / Rv - f_A / Rv_A)]. *)
Definition get_Rv_B (A : law) (Rv : option R) (Rv_A : option R)
    (f_A : R) : result R :=
  let Rv_A := or_attr Rv_A A in
  Rv <- need_float Rv ;;
  t1 <- py_div 1 Rv ;;
  Rv_A <- need_float Rv_A ;;
  t2 <- py_div f_A Rv_A ;;
  py_div (1 - f_A) (t1 - t2).

Definition is_None (v : option R) : bool :=
  match v with
  | None => true
  | Some _ => false
  end.

(** [sum([Rv_A is None, Rv_B is None, Rv is None])]. *)
Definition count_None (vs : list (option R)) : nat :=
  List.length (filter is_None vs).

(** The body of [MixtureLaw.function], given the [function] methods [fA] and
    [fB] of the two components. *)
Definition mixture_function (A B : law)
    (fA fB : wavelength -> R -> R -> bool -> result ndarray)
    (lamb : wavelength) (Av : R) (Rv_A : option R) (Alambda : bool)
    (f_A : R) (Rv_B Rv : option R) : result ndarray :=
  let u_lamb := val_in_unit "lamb"%string lamb angstrom in
  let Rv_A := or_attr Rv_A A in
  let Rv_B := or_attr Rv_B B in
  if Nat.leb 2 (count_None [Rv_A; Rv_B; Rv]) then Raise ValueError
  else
    Rv_A <- match Rv_A with
            | None => get_Rv_A B Rv f_A Rv_B
            | Some r => Ok r
            end ;;
    Rv_B <- match Rv_B with
            | None => get_Rv_B A Rv (Some Rv_A) f_A
            | Some r => Ok r
            end ;;
    a <- fA (WithUnit u_lamb) Av Rv_A Alambda ;;
    b <- fB (WithUnit u_lamb) Av Rv_B Alambda ;;
    Ok (np_add_arr (np_scale f_A a) (np_scale (1 - f_A) b)).

(** [l.function(lamb, Av=Av, Rv=Rv, Alambda=Alambda)], the call a mixture
    makes on its components.  A component that is itself a mixture receives
    the defaults [Rv_A=None], [f_A=0.5], [Rv_B=None]. *)
Fixpoint law_function (l : law) (lamb : wavelength) (Av Rv : R)
    (Alambda : bool) : result ndarray :=
  match l with
  | ExtinctionLaw => Raise NotImplementedError
  | Cardelli => Ok (Cardelli_function lamb Av Rv Alambda)
  | Calzetti => Ok (Calzetti_function lamb Av Rv Alambda)
  | Fitzpatrick99 => Fitzpatrick99_function lamb Av Rv Alambda
  | Gordon03_SMCBar self_Rv =>
    Gordon03_SMCBar_function self_Rv lamb Av (Some Rv) Alambda
  | MixtureLaw A B _ =>
    mixture_function A B (law_function A) (law_function B)
                     lamb Av None Alambda 0.5 None (Some Rv)
  end.

(** [MixtureLaw.function] of the mixture of [A] and [B]. *)
Definition MixtureLaw_function (A B : law) (lamb : wavelength) (Av : R)
    (Rv_A : option R) (Alambda : bool) (f_A : R)
    (Rv_B Rv : option R) : result ndarray :=
  mixture_function A B (law_function A) (law_function B)
                   lamb Av Rv_A Alambda f_A Rv_B Rv.

(** [ExtinctionLaw.isvalid], inherited by the four concrete laws. *)
Definition ExtinctionLaw_isvalid : bool := true.

(** [MixtureLaw.isvalid]. *)
Definition MixtureLaw_isvalid (A B : law) (Av Rv : option R) (f_A : R)
    (Rv_A Rv_B : option R) : result bool :=
  let Rv_B := or_attr Rv_B B in
  let Rv_A := or_attr Rv_A A in
  if Nat.leb 2 (count_None [Rv_A; Rv_B; Rv]) then Ok false
  else
    Rv_A <- match Rv_A with
            | None => get_Rv_A B Rv f_A Rv_B
            | Some r => Ok r
            end ;;
    Rv <- match Rv with
          | None => get_Rv A B (Some Rv_A) f_A Rv_B
          | Some r => Ok r
          end ;;
    Rv_B <- match Rv_B with
            | None => get_Rv_B A (Some Rv) (Some Rv_A) f_A
            | Some r => Ok r
            end ;;
    Ok ((0 <=? f_A) && (f_A <=? 1) && ((2.0 <=? Rv_B) && (Rv_B <=? 6.0))
        && ((2.0 <=? Rv_A) && (Rv_A <=? 6.0))
        && ((2.0 <=? Rv) && (Rv <=? 6.0))).

(** ** helpers.py: type_checker *)

(** [type_checker(name, obj, tp)]: returns nothing, or raises [TypeError]. *)
Definition type_checker (name : string) (obj : pyobj) (tp : pyclass)
    : result unit :=
  if negb (isNestedInstance obj tp) then Raise TypeError else Ok tt.

(** ** Calls with keyword arguments *)

(** The float-valued keyword arguments of a call, as the dict Python
    builds from them: no key is repeated. *)
Definition kwargs : Type := list (string * R).

Fixpoint kw_get (k : string) (kw : kwargs) : option R :=
  match kw with
  | [] => None
  | (k', v) :: rest => if String.eqb k k' then Some v else kw_get k rest
  end.

(** [ExtinctionLaw.__call__] on a mixture, [self.function(lamb, **kw)],
    against the signature
    [function(self, lamb, Av=1, Rv_A=None, Alambda=True, f_A=0.5,
              Rv_B=None, Rv=None, **kwargs)].
    A keyword [self] collides with the receiver that [__call__] binds, and
    a keyword [lamb] with the positional argument of [function]: both are
    a [TypeError].  A float given for [Alambda] is read by the components
    through its truth value; every other keyword lands in [**kwargs], which
    the body never reads. *)
Definition MixtureLaw_call (A B : law) (lamb : wavelength) (kw : kwargs)
    : result ndarray :=
  match kw_get "self" kw, kw_get "lamb" kw with
  | Some _, _ => Raise TypeError
  | None, Some _ => Raise TypeError
  | None, None =>
    let Av := match kw_get "Av" kw with Some v => v | None => 1 end in
    let Rv_A := kw_get "Rv_A" kw in
    let Alambda := match kw_get "Alambda" kw with
                   | Some v => negb (feq v 0)
                   | None => true
                   end in
    let f_A := match kw_get "f_A" kw with Some v => v | None => 0.5 end in
    let Rv_B := kw_get "Rv_B" kw in
    let Rv := kw_get "Rv" kw in
    MixtureLaw_function A B lamb Av Rv_A Alambda f_A Rv_B Rv
  end.

(** ** Vocabulary of the statements *)

(** The effect of a function on a returned value; an exception passes. *)
Definition result_map {A B : Type} (f : A -> B) (m : result A) : result B :=
  match m with
  | Ok a => Ok (f a)
  | Raise e => Raise e
  end.

(** An array without [inf] or [nan]. *)
Definition finite_array (a : ndarray) : Prop :=
  Forall (fun v => v <> None) a.

(** The wavenumber [1e4 / l] lies outside [0.3, 10.0]. *)
Definition wavenumber_outside (l : R) : Prop :=
  match np_rdiv 1e4 l with
  | None => True
  | Some x => x < 0.3 \/ 10.0 < x
  end.

(** [arr * s] for a Python float [s]. *)
Definition np_times (arr : ndarray) (s : R) : ndarray :=
  map (fun v => np_mul v (Some s)) arr.

(** The shape the four laws give to their output: a float is wrapped in a
    one-element array, an array keeps its shape. *)
Definition output_shape_of (m : pyval) : list nat :=
  match m with
  | PyFloat _ => [1%nat]
  | NdArray _ => shape m
  end.

Definition is_mixture (l : law) : bool :=
  match l with
  | MixtureLaw _ _ _ => true
  | _ => false
  end.

Definition in_interval (lo hi x : R) : Prop := lo <= x <= hi.

(** The R(V) resolution as the specification words it: the component
    values default to the laws' own [Rv] attribute; with all three known
    they are taken as given, with exactly one unknown it is derived from
    the other two by the 1/R relation, and with fewer than two known the
    resolution fails.  The triple is [(Rv, Rv_A, Rv_B)]. *)
Definition resolve_Rv (A B : law) (Rv : option R) (f_A : R)
    (Rv_A Rv_B : option R) : result (R * R * R) :=
  match Rv, or_attr Rv_A A, or_attr Rv_B B with
  | Some r, Some a, Some b => Ok (r, a, b)
  | None, Some a, Some b =>
    r <- get_Rv A B (Some a) f_A (Some b) ;; Ok (r, a, b)
  | Some r, None, Some b =>
    a <- get_Rv_A B (Some r) f_A (Some b) ;; Ok (r, a, b)
  | Some r, Some a, None =>
    b <- get_Rv_B A (Some r) (Some a) f_A ;; Ok (r, a, b)
  | _, _, _ => Raise ValueError
  end.

(** The value of a mixture as the specification words it,
    [f_A * A(lamb, Av, Rv_A, Alambda) + (1 - f_A) * B(lamb, Av, Rv_B, Alambda)],
    on the wavelengths normalised to angstrom, A evaluated first. *)
Definition weighted_sum (A B : law) (lamb : wavelength) (Av : R)
    (Alambda : bool) (f_A Rv_A Rv_B : R) : result ndarray :=
  let u_lamb := val_in_unit "lamb"%string lamb angstrom in
  ya <- law_function A (WithUnit u_lamb) Av Rv_A Alambda ;;
  yb <- law_function B (WithUnit u_lamb) Av Rv_B Alambda ;;
  Ok (np_add_arr (np_scale f_A ya) (np_scale (1 - f_A) yb)).

(** The final test of [isvalid] on a resolved triple. *)
Definition valid_triple (f_A : R) (t : R * R * R) : Prop :=
  let '(r, a, b) := t in
  in_interval 0 1 f_A /\ in_interval 2 6 b /\ in_interval 2 6 a
  /\ in_interval 2 6 r.

(** The four laws with a closed form or a spline. *)
Definition is_concrete (l : law) : bool :=
  match l with
  | Cardelli | Calzetti | Fitzpatrick99 | Gordon03_SMCBar _ => true
  | _ => false
  end.

(** A law in which Calzetti does not occur. *)
Fixpoint calzetti_free (l : law) : bool :=
  match l with
  | Calzetti => false
  | MixtureLaw A B _ => calzetti_free A && calzetti_free B
  | _ => true
  end.

(** Some wavelength of the list has its wavenumber in the UV,
    [1e4 / l >= xcutuv]. *)
Definition contains_uv (ls : list R) : bool :=
  existsb (fun xi => x_ge xi xcutuv) (map (np_rdiv 1e4) ls).

(** Cardelli's coefficients as a function by cases on disjoint intervals,
    after Cardelli, Clayton and Mathis (1989), eqs. 2 to 5. *)
Definition cardelli_piecewise (x : R) : R * R :=
  if x <? 0.3 then (0, 0)
  else if x <? 1.1 then (0.574 * Rpower x 1.61, -0.527 * Rpower x 1.61)
  else if x <? 3.3 then
    let y := x - 1.82 in
    (1 + 0.17699 * y - 0.50447 * y ^ 2 - 0.02427 * y ^ 3 + 0.72085 * y ^ 4
     + 0.01979 * y ^ 5 - 0.77530 * y ^ 6 + 0.32999 * y ^ 7,
     1.41338 * y + 2.28305 * y ^ 2 + 1.07233 * y ^ 3 - 5.38434 * y ^ 4
     - 0.62251 * y ^ 5 + 5.30260 * y ^ 6 - 2.09002 * y ^ 7)
  else if x <? 5.9 then
    (1.752 - 0.316 * x - 0.104 / ((x - 4.67) ^ 2 + 0.341),
     -3.090 + 1.825 * x + 1.206 / ((x - 4.62) ^ 2 + 0.263))
  else if x <? 8.0 then
    (1.752 - 0.316 * x - 0.104 / ((x - 4.67) ^ 2 + 0.341)
     + (-0.04473 * (x - 5.9) ^ 2 - 0.009779 * (x - 5.9) ^ 3),
     -3.090 + 1.825 * x + 1.206 / ((x - 4.62) ^ 2 + 0.263)
     + (0.21300 * (x - 5.9) ^ 2 + 0.120700 * (x - 5.9) ^ 3))
  else if x <=? 10.0 then
    (-1.073 - 0.628 * (x - 8) + 0.137 * ((x - 8) ^ 2) - 0.070 * (x - 8) ^ 3,
     13.670 + 4.257 * (x - 8) + 0.420 * ((x - 8) ^ 2) + 0.374 * (x - 8) ^ 3)
  else (0, 0).

(** The element of [out] at every nonzero wavelength of [ls] is finite;
    the two lists have one length. *)
Definition finite_where_nonzero (ls : list R) (out : ndarray) : Prop :=
  Forall2 (fun l v => l <> 0 -> v <> None) ls out.

(** The parameter names of [ExtinctionLaw.__call__] and of
    [MixtureLaw.function]. *)
Definition function_keywords : list string :=
  ["self"; "lamb"; "Av"; "Rv_A"; "Alambda"; "f_A"; "Rv_B"; "Rv"]%string.

(** * Properties *)

(** ** Comparisons and divisions *)

Lemma fle_true (x y : R) : x <= y -> (x <=? y) = true.
Proof. intros H. unfold fle. destruct (Rle_dec x y); [reflexivity | contradiction]. Qed.

Lemma fle_false (x y : R) : y < x -> (x <=? y) = false.
Proof. intros H. unfold fle. destruct (Rle_dec x y); [lra | reflexivity]. Qed.

Lemma flt_true (x y : R) : x < y -> (x <? y) = true.
Proof. intros H. unfold flt. destruct (Rlt_dec x y); [reflexivity | contradiction]. Qed.

Lemma flt_false (x y : R) : y <= x -> (x <? y) = false.
Proof. intros H. unfold flt. destruct (Rlt_dec x y); [lra | reflexivity]. Qed.

Lemma feq_true (x y : R) : x = y -> feq x y = true.
Proof. intros H. unfold feq. destruct (Req_dec_T x y); [reflexivity | contradiction]. Qed.

Lemma feq_false (x y : R) : x <> y -> feq x y = false.
Proof. intros H. unfold feq. destruct (Req_dec_T x y); [contradiction | reflexivity]. Qed.

Lemma fle_iff (x y : R) : (x <=? y) = true <-> x <= y.
Proof.
  unfold fle. destruct (Rle_dec x y); split; intros; try easy.
Qed.

Lemma py_div_ok (a b : R) : b <> 0 -> py_div a b = Ok (a / b).
Proof. intros H. unfold py_div. now rewrite feq_false. Qed.

Lemma py_div_zero (a b : R) : b = 0 -> py_div a b = Raise ZeroDivisionError.
Proof. intros H. unfold py_div. now rewrite feq_true. Qed.

Lemma exp_INR_mult (n : nat) (x : R) : exp (INR n * x) = exp x ^ n.
Proof.
  induction n as [| n IH].
  - simpl. rewrite Rmult_0_l. apply exp_0.
  - rewrite S_INR, Rmult_plus_distr_r, Rmult_1_l, exp_plus, IH.
    simpl. ring.
Qed.

(** [ln 10 < 2.5], from [exp (5/32) > 1 + 5/32] raised to the 16th power. *)
Lemma ln_10_lt : ln 10 < 2.5.
Proof.
  assert (Hexp : 10 < exp 2.5).
  { replace 2.5 with (INR 16 * 0.15625) by (simpl; lra).
    rewrite exp_INR_mult.
    apply Rlt_le_trans with ((1 + 0.15625) ^ 16); [lra |].
    apply pow_incr. split; [lra |].
    left. apply exp_ineq1. lra. }
  rewrite <- (ln_exp 2.5). apply ln_increasing; lra.
Qed.

Lemma ln_10_pos : 0 < ln 10.
Proof. rewrite <- ln_1. apply ln_increasing; lra. Qed.

(** ** The two output modes of the laws *)

Lemma cardelli_value_modes (Av Rv l : R) :
  cardelli_value Av Rv false l
  = np_mul (Some (0.4 * ln 10)) (cardelli_value Av Rv true l).
Proof.
  unfold cardelli_value.
  destruct (cardelli_ab (np_rdiv 1e4 l)) as [a b].
  unfold np_div. destruct (feq Rv 0); simpl; [reflexivity |].
  f_equal. ring.
Qed.

Lemma scale_by_Av_modes (Av : R) (k : npfloat) :
  scale_by_Av Av false k = np_mul (Some (0.4 * ln 10)) (scale_by_Av Av true k).
Proof.
  unfold scale_by_Av. destruct k as [k |]; simpl; [| reflexivity].
  f_equal. ring.
Qed.

Lemma calzetti_value_modes (Rv l : R) :
  calzetti_value Rv true l = Some (0.4 * calzetti_k Rv l)
  /\ calzetti_value Rv false l = Some (Rpower 10 (0.4 * calzetti_k Rv l)).
Proof. split; reflexivity. Qed.

(** C1 (amended).  For Cardelli, Fitzpatrick99 and Gordon03_SMCBar the
    value returned with [Alambda=False] is [0.4 * ln 10] times the value
    returned with [Alambda=True], element by element; a non-finite element
    or an exception shows up in both modes alike.  Calzetti returns
    [0.4 * k] with [Alambda=True] and [10 ** (0.4 * k)] otherwise. *)
Theorem tau_is_scaled_Alambda :
  (forall lamb Av Rv,
      Cardelli_function lamb Av Rv false
      = np_scale (0.4 * ln 10) (Cardelli_function lamb Av Rv true))
  /\ (forall lamb Av Rv,
      Fitzpatrick99_function lamb Av Rv false
      = result_map (np_scale (0.4 * ln 10))
                   (Fitzpatrick99_function lamb Av Rv true))
  /\ (forall self_Rv lamb Av Rv,
      Gordon03_SMCBar_function self_Rv lamb Av Rv false
      = result_map (np_scale (0.4 * ln 10))
                   (Gordon03_SMCBar_function self_Rv lamb Av Rv true))
  /\ (forall lamb Av Rv,
      Calzetti_function lamb Av Rv true
      = map (fun l => Some (0.4 * calzetti_k Rv l)) (lamb_angstrom lamb)
      /\ Calzetti_function lamb Av Rv false
         = map (fun l => Some (Rpower 10 (0.4 * calzetti_k Rv l)))
               (lamb_angstrom lamb)).
Proof.
  repeat split.
  - intros lamb Av Rv. unfold Cardelli_function, np_scale.
    rewrite map_map. apply map_ext. intros l. apply cardelli_value_modes.
  - intros lamb Av Rv. unfold Fitzpatrick99_function, py_div.
    destruct (feq Rv 0); cbn [bind result_map]; [reflexivity |].
    f_equal. unfold np_scale. rewrite !map_map. apply map_ext.
    intros x. apply scale_by_Av_modes.
  - intros self_Rv lamb Av Rv. unfold Gordon03_SMCBar_function, py_div.
    destruct (feq _ 0); cbn [bind result_map]; [reflexivity |].
    f_equal. unfold np_scale. rewrite !map_map. apply map_ext.
    intros l. apply scale_by_Av_modes.
Qed.

(** ** Shape of the output *)

Lemma output_shape_length (m : pyval) :
  [List.length (as_array m)] = output_shape_of m.
Proof. destruct m; reflexivity. Qed.

Lemma Fitzpatrick99_returns (lamb : wavelength) (Av Rv : R) (Alambda : bool) :
  Rv <> 0 ->
  exists out, Fitzpatrick99_function lamb Av Rv Alambda = Ok out
              /\ List.length out = List.length (lamb_angstrom lamb).
Proof.
  intros HRv. unfold Fitzpatrick99_function.
  rewrite py_div_ok by assumption. cbn [bind].
  eexists. split; [reflexivity |]. now rewrite !length_map.
Qed.

Lemma Gordon03_SMCBar_returns (self_Rv : R) (lamb : wavelength) (Av : R)
    (Rv : option R) (Alambda : bool) :
  match Rv with None => self_Rv | Some r => r end <> 0 ->
  exists out, Gordon03_SMCBar_function self_Rv lamb Av Rv Alambda = Ok out
              /\ List.length out = List.length (lamb_angstrom lamb).
Proof.
  intros HRv. unfold Gordon03_SMCBar_function.
  rewrite !py_div_ok by assumption. cbn [bind].
  eexists. split; [reflexivity |]. now rewrite length_map.
Qed.

(** C8 (amended).  The output of a concrete law is a one-dimensional array
    with one element per wavelength: it has the shape of a unit-stripped
    input array, and the shape [(1,)] for a unit-stripped input float.
    Cardelli and Calzetti always return; Fitzpatrick99 and Gordon03_SMCBar
    return whenever the R(V) in use is not zero. *)
Theorem output_shape :
  forall lamb Av Rv Alambda,
    let m := magnitude (val_in_unit "lamb"%string lamb angstrom) in
    ndarray_shape (Cardelli_function lamb Av Rv Alambda) = output_shape_of m
    /\ ndarray_shape (Calzetti_function lamb Av Rv Alambda)
       = output_shape_of m
    /\ (Rv <> 0 ->
        exists out, Fitzpatrick99_function lamb Av Rv Alambda = Ok out
                    /\ ndarray_shape out = output_shape_of m)
    /\ (forall self_Rv Rv_arg,
        match Rv_arg with None => self_Rv | Some r => r end <> 0 ->
        exists out,
          Gordon03_SMCBar_function self_Rv lamb Av Rv_arg Alambda = Ok out
          /\ ndarray_shape out = output_shape_of m).
Proof.
  intros lamb Av Rv Alambda m. unfold ndarray_shape.
  rewrite <- (output_shape_length m).
  repeat apply conj.
  - unfold Cardelli_function. now rewrite length_map.
  - unfold Calzetti_function. now rewrite length_map.
  - intros HRv.
    destruct (Fitzpatrick99_returns lamb Av Rv Alambda HRv)
      as (out & Hout & Hlen).
    exists out. split; [exact Hout |]. now rewrite Hlen.
  - intros self_Rv Rv_arg HRv.
    destruct (Gordon03_SMCBar_returns self_Rv lamb Av Rv_arg Alambda HRv)
      as (out & Hout & Hlen).
    exists out. split; [exact Hout |]. now rewrite Hlen.
Qed.

(** ** Gordon03_SMCBar: the stored default *)

(** C9.  A Gordon03_SMCBar built without argument stores [Rv = 2.74]; its
    [function] called without [Rv] returns, and returns what the call with
    [Rv=2.74] returns. *)
Theorem Gordon03_SMCBar_default_Rv :
  Gordon03_SMCBar_init None = 2.74
  /\ forall lamb Av Alambda,
      Gordon03_SMCBar_function (Gordon03_SMCBar_init None) lamb Av None
                               Alambda
      = Gordon03_SMCBar_function (Gordon03_SMCBar_init None) lamb Av
                                 (Some 2.74) Alambda
      /\ exists out,
          Gordon03_SMCBar_function (Gordon03_SMCBar_init None) lamb Av None
                                   Alambda = Ok out.
Proof.
  split; [reflexivity |].
  intros lamb Av Alambda. split; [reflexivity |].
  destruct (Gordon03_SMCBar_returns (Gordon03_SMCBar_init None) lamb Av None
                                    Alambda) as (out & Hout & _).
  - simpl. lra.
  - now exists out.
Qed.

(** ** The role of Av *)

Lemma cardelli_value_Av (Av Rv : R) (Alambda : bool) (l : R) :
  cardelli_value Av Rv Alambda l
  = np_mul (cardelli_value 1 Rv Alambda l) (Some Av).
Proof.
  unfold cardelli_value.
  destruct (cardelli_ab (np_rdiv 1e4 l)) as [a b].
  unfold np_div. destruct (feq Rv 0), Alambda; simpl; try reflexivity;
    f_equal; ring.
Qed.

Lemma scale_by_Av_Av (Av : R) (Alambda : bool) (k : npfloat) :
  scale_by_Av Av Alambda k = np_mul (scale_by_Av 1 Alambda k) (Some Av).
Proof.
  unfold scale_by_Av. destruct k as [k |], Alambda; simpl; try reflexivity;
    f_equal; ring.
Qed.

(** C10.  Calzetti's result does not depend on [Av], whereas the other
    three laws return their value at [Av = 1] multiplied by [Av]. *)
Theorem Calzetti_ignores_Av :
  (forall lamb Av1 Av2 Rv Alambda,
      Calzetti_function lamb Av1 Rv Alambda
      = Calzetti_function lamb Av2 Rv Alambda)
  /\ (forall lamb Av Rv Alambda,
      Cardelli_function lamb Av Rv Alambda
      = np_times (Cardelli_function lamb 1 Rv Alambda) Av)
  /\ (forall lamb Av Rv Alambda,
      Fitzpatrick99_function lamb Av Rv Alambda
      = result_map (fun out => np_times out Av)
                   (Fitzpatrick99_function lamb 1 Rv Alambda))
  /\ (forall self_Rv lamb Av Rv Alambda,
      Gordon03_SMCBar_function self_Rv lamb Av Rv Alambda
      = result_map (fun out => np_times out Av)
                   (Gordon03_SMCBar_function self_Rv lamb 1 Rv Alambda)).
Proof.
  repeat apply conj.
  - reflexivity.
  - intros lamb Av Rv Alambda. unfold Cardelli_function, np_times.
    rewrite map_map. apply map_ext. intros l. apply cardelli_value_Av.
  - intros lamb Av Rv Alambda. unfold Fitzpatrick99_function, py_div.
    destruct (feq Rv 0); cbn [bind result_map]; [reflexivity |].
    f_equal. unfold np_times. rewrite !map_map. apply map_ext.
    intros x. apply scale_by_Av_Av.
  - intros self_Rv lamb Av Rv Alambda.
    unfold Gordon03_SMCBar_function, py_div.
    destruct (feq _ 0); cbn [bind result_map]; [reflexivity |].
    f_equal. unfold np_times. rewrite !map_map. apply map_ext.
    intros l. apply scale_by_Av_Av.
Qed.

(** ** Cardelli outside its support *)

Lemma cardelli_ab_outside (l : R) :
  wavenumber_outside l -> cardelli_ab (np_rdiv 1e4 l) = (0, 0).
Proof.
  unfold wavenumber_outside.
  destruct (np_rdiv 1e4 l) as [x |]; [| reflexivity].
  intros Hout.
  assert (Hind : (x >? 10.0) || (x <? 0.3) = true).
  { unfold fgt. destruct Hout as [Hlo | Hhi].
    - rewrite (flt_true x 0.3) by assumption. apply orb_true_r.
    - now rewrite (flt_true 10.0 x) by assumption. }
  unfold cardelli_ab. cbv zeta. rewrite Hind. reflexivity.
Qed.

(** C6 (amended).  At every wavelength whose wavenumber lies outside
    [0.3, 10.0] the coefficients [a] and [b] are zero, and for every [Av]
    and every R(V) other than zero Cardelli returns exactly [0] there, in
    both output modes. *)
Theorem Cardelli_zero_outside :
  forall lamb Av Rv Alambda i l,
    nth_error (lamb_angstrom lamb) i = Some l ->
    wavenumber_outside l ->
    Rv <> 0 ->
    cardelli_ab (np_rdiv 1e4 l) = (0, 0)
    /\ nth_error (Cardelli_function lamb Av Rv Alambda) i = Some (Some 0).
Proof.
  intros lamb Av Rv Alambda i l Hl Hout HRv.
  pose proof (cardelli_ab_outside l Hout) as Hab.
  split; [exact Hab |].
  unfold Cardelli_function.
  rewrite (map_nth_error _ _ _ Hl). f_equal.
  unfold cardelli_value. rewrite Hab. unfold np_div.
  rewrite feq_false by assumption.
  destruct Alambda; simpl; f_equal; unfold Rdiv; ring.
Qed.

(** ** The three R(V) helpers *)

(** C4.  On a triple that satisfies [1/Rv = f_A/Rv_A + (1-f_A)/Rv_B], with
    no denominator of the formulas equal to zero, each helper returns the
    third value from the other two. *)
Theorem get_Rv_mutually_inverse :
  forall A B Rv Rv_A Rv_B f_A,
    Rv <> 0 -> Rv_A <> 0 -> Rv_B <> 0 -> f_A <> 0 -> f_A <> 1 ->
    1 / Rv = f_A / Rv_A + (1 - f_A) / Rv_B ->
    get_Rv_A B (Some Rv) f_A (Some Rv_B) = Ok Rv_A
    /\ get_Rv A B (Some Rv_A) f_A (Some Rv_B) = Ok Rv
    /\ get_Rv_B A (Some Rv) (Some Rv_A) f_A = Ok Rv_B.
Proof.
  intros A B Rv Rv_A Rv_B f_A HRv HRvA HRvB Hf0 Hf1 Hrel.
  assert (HA : 1 / (Rv * f_A) - (1 - f_A) / (f_A * Rv_B) = 1 / Rv_A).
  { transitivity ((1 / Rv - (1 - f_A) / Rv_B) / f_A); [now field |].
    rewrite Hrel. now field. }
  assert (HB : 1 / Rv - f_A / Rv_A = (1 - f_A) / Rv_B).
  { rewrite Hrel. now field. }
  assert (HinvA : 1 / Rv_A <> 0).
  { unfold Rdiv. rewrite Rmult_1_l. now apply Rinv_neq_0_compat. }
  assert (HinvR : 1 / Rv <> 0).
  { unfold Rdiv. rewrite Rmult_1_l. now apply Rinv_neq_0_compat. }
  assert (HinvB : (1 - f_A) / Rv_B <> 0).
  { unfold Rdiv. apply Rmult_integral_contrapositive_currified;
      [lra | now apply Rinv_neq_0_compat]. }
  repeat apply conj.
  - unfold get_Rv_A. cbn [or_attr need_float bind].
    rewrite (py_div_ok 1 (Rv * f_A))
      by now apply Rmult_integral_contrapositive_currified.
    cbn [bind].
    rewrite (py_div_ok (1 - f_A) (f_A * Rv_B))
      by now apply Rmult_integral_contrapositive_currified.
    cbn [bind]. rewrite HA. rewrite py_div_ok by assumption.
    f_equal. now field.
  - unfold get_Rv. cbn [or_attr need_float bind].
    rewrite !py_div_ok by assumption. cbn [bind].
    rewrite <- Hrel. rewrite py_div_ok by assumption.
    f_equal. now field.
  - unfold get_Rv_B. cbn [or_attr need_float bind].
    rewrite !py_div_ok by assumption. cbn [bind].
    rewrite HB. rewrite py_div_ok by assumption.
    f_equal. field. split; [assumption | lra].
Qed.

(** ** Composition of laws *)

Lemma isNestedInstance_law (o : pyobj) :
  isNestedInstance o cls_ExtinctionLaw
  = match o with PyLaw _ => true | _ => false end.
Proof. destruct o as [| r | s | []]; reflexivity. Qed.

Lemma MixtureLaw_init_cases (A B : pyobj) (name : option string) :
  MixtureLaw_init A B name
  = match A, B with
    | PyLaw a, PyLaw b =>
      Ok (MixtureLaw a b
            (name_or name ("(" ++ law_name a ++ ", " ++ law_name b ++ ")")))
    | _, _ => Raise ValueError
    end.
Proof.
  unfold MixtureLaw_init. rewrite !isNestedInstance_law.
  destruct A, B; reflexivity.
Qed.

(** C2 (amended).  [lawA + lawB] on two laws returns the mixture with
    [A = lawA], [B = lawB] and the name composed from theirs.  A right
    operand, or a constructor argument, that is not an ExtinctionLaw
    instance makes the constructor raise [ValueError]; only a left operand
    that is not a law gives a [TypeError], raised by Python's own
    dispatch of [+]. *)
Theorem add_builds_mixture :
  (forall lawA lawB,
      binary_add (PyLaw lawA) (PyLaw lawB)
      = Ok (PyLaw (MixtureLaw lawA lawB
                     ("(" ++ law_name lawA ++ ", " ++ law_name lawB ++ ")")))
      /\ ExtinctionLaw_add lawA (PyLaw lawB)
         = Ok (MixtureLaw lawA lawB
                 ("(" ++ law_name lawA ++ ", " ++ law_name lawB ++ ")")))
  /\ (forall lawA other,
      isNestedInstance other cls_ExtinctionLaw = false ->
      binary_add (PyLaw lawA) other = Raise ValueError
      /\ ExtinctionLaw_add lawA other = Raise ValueError)
  /\ (forall A B name,
      isNestedInstance A cls_ExtinctionLaw = false
      \/ isNestedInstance B cls_ExtinctionLaw = false ->
      MixtureLaw_init A B name = Raise ValueError)
  /\ (forall other lawB,
      isNestedInstance other cls_ExtinctionLaw = false ->
      binary_add other (PyLaw lawB) = Raise TypeError).
Proof.
  repeat apply conj.
  - intros lawA lawB. unfold binary_add, ExtinctionLaw_add.
    rewrite MixtureLaw_init_cases. split; reflexivity.
  - intros lawA other Hother. rewrite isNestedInstance_law in Hother.
    unfold binary_add, ExtinctionLaw_add. rewrite MixtureLaw_init_cases.
    destruct other; try discriminate; split; reflexivity.
  - intros A B name H. rewrite !isNestedInstance_law in H.
    rewrite MixtureLaw_init_cases.
    destruct A, B; try reflexivity; destruct H; discriminate.
  - intros other lawB Hother. rewrite isNestedInstance_law in Hother.
    destruct other; try discriminate; reflexivity.
Qed.

(** ** Resolution of the R(V) values *)

Lemma bind_Ok_inv {A B : Type} (m : result A) (k : A -> result B) (b : B) :
  bind m k = Ok b -> exists a, m = Ok a /\ k a = Ok b.
Proof.
  destruct m as [a | e]; simpl; intros H; [| discriminate].
  now exists a.
Qed.

Lemma bind_not_ValueError {A B : Type} (m : result A) (k : A -> result B) :
  m <> Raise ValueError ->
  (forall a, k a <> Raise ValueError) ->
  bind m k <> Raise ValueError.
Proof.
  intros Hm Hk. destruct m as [a | e]; simpl; [apply Hk |].
  intros H. apply Hm. congruence.
Qed.

Lemma py_div_not_ValueError (a b : R) : py_div a b <> Raise ValueError.
Proof. unfold py_div. destruct (feq b 0); discriminate. Qed.

Lemma need_float_not_ValueError (v : option R) :
  need_float v <> Raise ValueError.
Proof. destruct v; discriminate. Qed.

Lemma get_Rv_A_not_ValueError (B : law) (Rv : option R) (f_A : R)
    (Rv_B : option R) :
  get_Rv_A B Rv f_A Rv_B <> Raise ValueError.
Proof.
  unfold get_Rv_A.
  repeat (apply bind_not_ValueError;
          [first [apply py_div_not_ValueError
                 | apply need_float_not_ValueError] | intros ?]).
  apply py_div_not_ValueError.
Qed.

Lemma get_Rv_not_ValueError (A B : law) (Rv_A : option R) (f_A : R)
    (Rv_B : option R) :
  get_Rv A B Rv_A f_A Rv_B <> Raise ValueError.
Proof.
  unfold get_Rv.
  repeat (apply bind_not_ValueError;
          [first [apply py_div_not_ValueError
                 | apply need_float_not_ValueError] | intros ?]).
  apply py_div_not_ValueError.
Qed.

Lemma get_Rv_B_not_ValueError (A : law) (Rv Rv_A : option R) (f_A : R) :
  get_Rv_B A Rv Rv_A f_A <> Raise ValueError.
Proof.
  unfold get_Rv_B.
  repeat (apply bind_not_ValueError;
          [first [apply py_div_not_ValueError
                 | apply need_float_not_ValueError] | intros ?]).
  apply py_div_not_ValueError.
Qed.

Lemma law_function_not_ValueError (l : law) (lamb : wavelength) (Av Rv : R)
    (Alambda : bool) :
  is_mixture l = false ->
  law_function l lamb Av Rv Alambda <> Raise ValueError.
Proof.
  destruct l; simpl; intros Hl; try discriminate.
  - unfold Fitzpatrick99_function.
    apply bind_not_ValueError; [apply py_div_not_ValueError |].
    intros q. discriminate.
  - unfold Gordon03_SMCBar_function.
    repeat (apply bind_not_ValueError;
            [apply py_div_not_ValueError | intros ?]).
    discriminate.
Qed.

(** C3 (amended).  On two components that are not themselves mixtures,
    [MixtureLaw.function] raises [ValueError] exactly when fewer than two of
    [Rv], [Rv_A], [Rv_B] are known once the components' own [Rv] attributes
    have been consulted.  When at least two are known the missing component
    value is derived: an unknown [Rv_A] is [get_Rv_A(Rv, f_A, Rv_B)], an
    unknown [Rv_B] is [get_Rv_B(Rv, Rv_A, f_A)], an exception of the helper
    passes, and the components are evaluated at the resolved values; with
    both component values known nothing is derived. *)
Theorem function_ValueError_iff :
  forall A B lamb Av Rv_A Alambda f_A Rv_B Rv,
    (is_mixture A = false ->
     is_mixture B = false ->
     (MixtureLaw_function A B lamb Av Rv_A Alambda f_A Rv_B Rv
      = Raise ValueError
      <-> (2 <= count_None [or_attr Rv_A A; or_attr Rv_B B; Rv])%nat))
    /\ (forall r b,
        Rv = Some r -> or_attr Rv_A A = None -> or_attr Rv_B B = Some b ->
        MixtureLaw_function A B lamb Av Rv_A Alambda f_A Rv_B Rv
        = (a <- get_Rv_A B (Some r) f_A (Some b) ;;
           weighted_sum A B lamb Av Alambda f_A a b))
    /\ (forall r a,
        Rv = Some r -> or_attr Rv_A A = Some a -> or_attr Rv_B B = None ->
        MixtureLaw_function A B lamb Av Rv_A Alambda f_A Rv_B Rv
        = (b <- get_Rv_B A (Some r) (Some a) f_A ;;
           weighted_sum A B lamb Av Alambda f_A a b))
    /\ (forall a b,
        or_attr Rv_A A = Some a -> or_attr Rv_B B = Some b ->
        MixtureLaw_function A B lamb Av Rv_A Alambda f_A Rv_B Rv
        = weighted_sum A B lamb Av Alambda f_A a b).
Proof.
  intros A B lamb Av Rv_A Alambda f_A Rv_B Rv.
  unfold MixtureLaw_function, mixture_function, weighted_sum.
  split; [| split; [| split]].
  - intros HA HB.
    destruct (Nat.leb 2 (count_None [or_attr Rv_A A; or_attr Rv_B B; Rv]))
      eqn:Hcount.
    + apply Nat.leb_le in Hcount. tauto.
    + apply Nat.leb_gt in Hcount. split; [| lia].
      intros H. exfalso. revert H.
      apply bind_not_ValueError.
      { destruct (or_attr Rv_A A);
          [discriminate | apply get_Rv_A_not_ValueError]. }
      intros a. apply bind_not_ValueError.
      { destruct (or_attr Rv_B B);
          [discriminate | apply get_Rv_B_not_ValueError]. }
      intros b. apply bind_not_ValueError.
      { now apply law_function_not_ValueError. }
      intros ya. apply bind_not_ValueError.
      { now apply law_function_not_ValueError. }
      intros yb. discriminate.
  - intros r b -> HA HB. rewrite HA, HB.
    cbn [count_None filter is_None List.length Nat.leb].
    destruct (get_Rv_A B (Some r) f_A (Some b)); reflexivity.
  - intros r a -> HA HB. rewrite HA, HB.
    cbn [count_None filter is_None List.length Nat.leb bind].
    destruct (get_Rv_B A (Some r) (Some a) f_A); reflexivity.
  - intros a b HA HB. rewrite HA, HB.
    destruct Rv; reflexivity.
Qed.

(** ** Validity of a mixture *)

Lemma valid_triple_test (f_A r a b : R) :
  (0 <=? f_A) && (f_A <=? 1) && ((2.0 <=? b) && (b <=? 6.0))
  && ((2.0 <=? a) && (a <=? 6.0)) && ((2.0 <=? r) && (r <=? 6.0)) = true
  <-> valid_triple f_A (r, a, b).
Proof.
  unfold valid_triple, in_interval.
  rewrite !andb_true_iff, !fle_iff. intuition lra.
Qed.

(** [isvalid] resolves the triple and tests it; too few known values give
    [False], an exception of a helper passes through. *)
Lemma isvalid_resolve (A B : law) (Av Rv : option R) (f_A : R)
    (Rv_A Rv_B : option R) :
  MixtureLaw_isvalid A B Av Rv f_A Rv_A Rv_B
  = match resolve_Rv A B Rv f_A Rv_A Rv_B with
    | Ok (r, a, b) =>
      Ok ((0 <=? f_A) && (f_A <=? 1) && ((2.0 <=? b) && (b <=? 6.0))
          && ((2.0 <=? a) && (a <=? 6.0)) && ((2.0 <=? r) && (r <=? 6.0)))
    | Raise ValueError => Ok false
    | Raise e => Raise e
    end.
Proof.
  unfold MixtureLaw_isvalid, resolve_Rv.
  destruct Rv as [r |], (or_attr Rv_A A) as [a |], (or_attr Rv_B B) as [b |];
    cbn [count_None filter is_None List.length Nat.leb bind];
    try reflexivity.
  - pose proof (get_Rv_B_not_ValueError A (Some r) (Some a) f_A) as Hne.
    destruct (get_Rv_B A (Some r) (Some a) f_A) as [b | []];
      cbn [bind]; try reflexivity. now contradiction Hne.
  - pose proof (get_Rv_A_not_ValueError B (Some r) f_A (Some b)) as Hne.
    destruct (get_Rv_A B (Some r) f_A (Some b)) as [a | []];
      cbn [bind]; try reflexivity. now contradiction Hne.
  - pose proof (get_Rv_not_ValueError A B (Some a) f_A (Some b)) as Hne.
    destruct (get_Rv A B (Some a) f_A (Some b)) as [r | []];
      cbn [bind]; try reflexivity. now contradiction Hne.
Qed.

Lemma py_div_Raise_inv (a b : R) (e : exn) :
  py_div a b = Raise e -> e = ZeroDivisionError.
Proof.
  unfold py_div. destruct (feq b 0); intros H; [congruence | discriminate].
Qed.

Lemma bind_py_div_Raise_inv {B : Type} (a b : R) (k : R -> result B)
    (e : exn) :
  (forall c, k c = Raise e -> e = ZeroDivisionError) ->
  bind (py_div a b) k = Raise e -> e = ZeroDivisionError.
Proof.
  intros Hk. destruct (py_div a b) as [c | e'] eqn:Hd; cbn [bind].
  - apply Hk.
  - intros H. injection H as <-. now apply py_div_Raise_inv in Hd.
Qed.

(** With both arguments given, a helper that does not return raises
    [ZeroDivisionError]. *)
Lemma helpers_Raise_inv (A B : law) (x y f_A : R) (e : exn) :
  (get_Rv_A B (Some x) f_A (Some y) = Raise e -> e = ZeroDivisionError)
  /\ (get_Rv A B (Some x) f_A (Some y) = Raise e -> e = ZeroDivisionError)
  /\ (get_Rv_B A (Some x) (Some y) f_A = Raise e -> e = ZeroDivisionError).
Proof.
  unfold get_Rv_A, get_Rv, get_Rv_B. cbn [or_attr need_float bind].
  repeat split;
    repeat (apply bind_py_div_Raise_inv; intros ?);
    apply py_div_Raise_inv.
Qed.

(** The resolution fails with [ValueError] when too few values are known,
    and otherwise only with the [ZeroDivisionError] of a helper. *)
Lemma resolve_Rv_Raise_inv (A B : law) (Rv : option R) (f_A : R)
    (Rv_A Rv_B : option R) (e : exn) :
  resolve_Rv A B Rv f_A Rv_A Rv_B = Raise e ->
  e = ValueError \/ e = ZeroDivisionError.
Proof.
  unfold resolve_Rv.
  destruct Rv as [r |], (or_attr Rv_A A) as [a |], (or_attr Rv_B B) as [b |];
    intros H; try discriminate; try (left; congruence); right.
  - destruct (get_Rv_B A (Some r) (Some a) f_A) as [v | e'] eqn:Hh;
      cbn [bind] in H; [discriminate | injection H as <-].
    now apply (helpers_Raise_inv A B) in Hh.
  - destruct (get_Rv_A B (Some r) f_A (Some b)) as [v | e'] eqn:Hh;
      cbn [bind] in H; [discriminate | injection H as <-].
    now apply (helpers_Raise_inv A B) in Hh.
  - destruct (get_Rv A B (Some a) f_A (Some b)) as [v | e'] eqn:Hh;
      cbn [bind] in H; [discriminate | injection H as <-].
    now apply (helpers_Raise_inv A B) in Hh.
Qed.

(** C5 (amended).  [isvalid] returns [True] exactly when at least two of the
    three R(V) are known, the third is derived without error, [f_A] is in
    [0, 1] and the three resolved values are in [2.0, 6.0].  It returns
    [False] when fewer than two are known, and when the triple is resolved
    with a value outside [2.0, 6.0] or [f_A] outside [0, 1].  It returns
    [True] for [Rv = Rv_A = Rv_B = 3.1], [f_A = 0.5].  When the helper that
    derives the missing value divides by zero, [isvalid] does not return:
    it raises [ZeroDivisionError]. *)
Theorem isvalid_spec :
  forall A B Av Rv f_A Rv_A Rv_B,
    (MixtureLaw_isvalid A B Av Rv f_A Rv_A Rv_B = Ok true
     <-> exists t, resolve_Rv A B Rv f_A Rv_A Rv_B = Ok t
                   /\ valid_triple f_A t)
    /\ (forall t, resolve_Rv A B Rv f_A Rv_A Rv_B = Ok t ->
                  ~ valid_triple f_A t ->
                  MixtureLaw_isvalid A B Av Rv f_A Rv_A Rv_B = Ok false)
    /\ ((2 <= count_None [or_attr Rv_A A; or_attr Rv_B B; Rv])%nat ->
        MixtureLaw_isvalid A B Av Rv f_A Rv_A Rv_B = Ok false)
    /\ MixtureLaw_isvalid A B Av (Some 3.1) 0.5 (Some 3.1) (Some 3.1)
       = Ok true
    /\ (forall e,
        resolve_Rv A B Rv f_A Rv_A Rv_B = Raise e ->
        e <> ValueError ->
        e = ZeroDivisionError
        /\ MixtureLaw_isvalid A B Av Rv f_A Rv_A Rv_B
           = Raise ZeroDivisionError)
    /\ (forall r a b,
        (Rv = Some r -> or_attr Rv_A A = None -> or_attr Rv_B B = Some b ->
         get_Rv_A B (Some r) f_A (Some b) = Raise ZeroDivisionError ->
         MixtureLaw_isvalid A B Av Rv f_A Rv_A Rv_B
         = Raise ZeroDivisionError)
        /\ (Rv = None -> or_attr Rv_A A = Some a -> or_attr Rv_B B = Some b ->
            get_Rv A B (Some a) f_A (Some b) = Raise ZeroDivisionError ->
            MixtureLaw_isvalid A B Av Rv f_A Rv_A Rv_B
            = Raise ZeroDivisionError)
        /\ (Rv = Some r -> or_attr Rv_A A = Some a -> or_attr Rv_B B = None ->
            get_Rv_B A (Some r) (Some a) f_A = Raise ZeroDivisionError ->
            MixtureLaw_isvalid A B Av Rv f_A Rv_A Rv_B
            = Raise ZeroDivisionError)).
Proof.
  intros A B Av Rv f_A Rv_A Rv_B.
  split; [| split; [| split; [| split; [| split]]]].
  - rewrite isvalid_resolve.
    destruct (resolve_Rv A B Rv f_A Rv_A Rv_B) as [[[r a] b] | e].
    + split.
      * intros H. injection H as H. apply valid_triple_test in H.
        now exists (r, a, b).
      * intros (t & Ht & Hv). injection Ht as <-.
        f_equal. now apply valid_triple_test.
    + split.
      * destruct e; discriminate.
      * intros (t & Ht & _). discriminate.
  - intros [[r a] b] Ht Hv. rewrite isvalid_resolve, Ht. f_equal.
    apply not_true_is_false. intros H. apply Hv.
    now apply valid_triple_test.
  - intros Hcount. unfold MixtureLaw_isvalid.
    apply Nat.leb_le in Hcount. now rewrite Hcount.
  - unfold MixtureLaw_isvalid.
    cbn [or_attr count_None filter is_None List.length Nat.leb bind].
    f_equal. apply valid_triple_test.
    unfold valid_triple, in_interval. lra.
  - intros e Hres Hne.
    destruct (resolve_Rv_Raise_inv _ _ _ _ _ _ _ Hres) as [-> | ->];
      [contradiction |].
    split; [reflexivity |]. now rewrite isvalid_resolve, Hres.
  - intros r a b. unfold MixtureLaw_isvalid. split; [| split].
    + intros -> HA HB Hh. rewrite HA, HB.
      cbn [count_None filter is_None List.length Nat.leb].
      now rewrite Hh.
    + intros -> HA HB Hh. rewrite HA, HB.
      cbn [count_None filter is_None List.length Nat.leb bind].
      now rewrite Hh.
    + intros -> HA HB Hh. rewrite HA, HB.
      cbn [count_None filter is_None List.length Nat.leb bind].
      now rewrite Hh.
Qed.

(** ** A mixture with all the weight on one component *)

Lemma rescale_1 (m : pyval) : rescale 1 m = m.
Proof.
  destruct m as [r | data]; simpl; f_equal; [apply Rmult_1_r |].
  rewrite <- (map_id data) at 2. apply map_ext. intros r. apply Rmult_1_r.
Qed.

(** Normalising a quantity that is already in angstrom changes nothing. *)
Lemma val_in_unit_idem (n1 n2 : string) (lamb : wavelength) :
  val_in_unit n1 (WithUnit (val_in_unit n2 lamb angstrom)) angstrom
  = val_in_unit n2 lamb angstrom.
Proof.
  destruct lamb as [v | q]; simpl; unfold Quantity_to; simpl;
    rewrite convert_same, rescale_1; reflexivity.
Qed.

Lemma lamb_angstrom_idem (n : string) (lamb : wavelength) :
  lamb_angstrom (WithUnit (val_in_unit n lamb angstrom)) = lamb_angstrom lamb.
Proof.
  unfold lamb_angstrom. rewrite val_in_unit_idem.
  destruct lamb; reflexivity.
Qed.

Lemma law_function_normalised (l : law) (lamb : wavelength) (Av Rv : R)
    (Alambda : bool) :
  law_function l (WithUnit (val_in_unit "lamb"%string lamb angstrom))
               Av Rv Alambda
  = law_function l lamb Av Rv Alambda.
Proof.
  destruct l; cbn [law_function]; try reflexivity.
  - unfold Cardelli_function. now rewrite lamb_angstrom_idem.
  - unfold Calzetti_function. now rewrite lamb_angstrom_idem.
  - unfold Fitzpatrick99_function. now rewrite lamb_angstrom_idem.
  - unfold Gordon03_SMCBar_function. now rewrite lamb_angstrom_idem.
  - unfold mixture_function. now rewrite val_in_unit_idem.
Qed.

Lemma np_add_arr_length (a b : ndarray) :
  List.length a = List.length b ->
  List.length (np_add_arr a b) = List.length a.
Proof.
  intros H. unfold np_add_arr. rewrite length_map, length_combine. lia.
Qed.

(** Every law returns one element per wavelength. *)
Lemma law_function_length (l : law) :
  forall lamb Av Rv Alambda out,
    law_function l lamb Av Rv Alambda = Ok out ->
    List.length out = List.length (lamb_angstrom lamb).
Proof.
  induction l as [| | | | self_Rv | A IHA B IHB name];
    intros lamb Av Rv Alambda out H; cbn [law_function] in H.
  - discriminate.
  - injection H as <-. unfold Cardelli_function. now rewrite length_map.
  - injection H as <-. unfold Calzetti_function. now rewrite length_map.
  - unfold Fitzpatrick99_function in H.
    apply bind_Ok_inv in H as (q & _ & H). injection H as <-.
    now rewrite !length_map.
  - unfold Gordon03_SMCBar_function in H.
    apply bind_Ok_inv in H as (c1 & _ & H).
    apply bind_Ok_inv in H as (c2 & _ & H).
    apply bind_Ok_inv in H as (c3 & _ & H).
    apply bind_Ok_inv in H as (c4 & _ & H).
    injection H as <-. now rewrite length_map.
  - unfold mixture_function in H.
    destruct (Nat.leb 2 _); [discriminate |].
    apply bind_Ok_inv in H as (ra & _ & H).
    apply bind_Ok_inv in H as (rb & _ & H).
    apply bind_Ok_inv in H as (ya & Hya & H).
    apply bind_Ok_inv in H as (yb & Hyb & H).
    injection H as <-.
    apply IHA in Hya. apply IHB in Hyb.
    rewrite lamb_angstrom_idem in Hya, Hyb.
    rewrite np_add_arr_length; unfold np_scale; rewrite !length_map; lia.
Qed.

Lemma np_mix_all_A (a b : ndarray) :
  List.length a = List.length b ->
  finite_array b ->
  np_add_arr (np_scale 1 a) (np_scale (1 - 1) b) = a.
Proof.
  revert b. induction a as [| x a IH]; intros [| y b] Hlen Hfin;
    try discriminate; [reflexivity |].
  inversion Hfin as [| ? ? Hy Hb]; subst.
  unfold np_add_arr, np_scale in *. cbn [map combine fst snd].
  f_equal; [| apply IH; [now injection Hlen | exact Hb]].
  destruct y as [y |]; [| contradiction].
  destruct x as [x |]; simpl; [f_equal; ring | reflexivity].
Qed.

Lemma np_mix_all_B (a b : ndarray) :
  List.length a = List.length b ->
  finite_array a ->
  np_add_arr (np_scale 0 a) (np_scale (1 - 0) b) = b.
Proof.
  revert b. induction a as [| x a IH]; intros [| y b] Hlen Hfin;
    try discriminate; [reflexivity |].
  inversion Hfin as [| ? ? Hx Ha]; subst.
  unfold np_add_arr, np_scale in *. cbn [map combine fst snd].
  f_equal; [| apply IH; [now injection Hlen | exact Ha]].
  destruct x as [x |]; [| contradiction].
  destruct y as [y |]; simpl; [f_equal; ring | reflexivity].
Qed.

(** Gordon03_SMCBar returns finite values at nonzero wavelengths. *)
Lemma Gordon03_SMCBar_finite (self_Rv : R) (lamb : wavelength) (Av : R)
    (Rv : option R) (Alambda : bool) :
  match Rv with None => self_Rv | Some r => r end <> 0 ->
  Forall (fun l => l <> 0) (lamb_angstrom lamb) ->
  exists out, Gordon03_SMCBar_function self_Rv lamb Av Rv Alambda = Ok out
              /\ finite_array out.
Proof.
  intros HRv Hl. unfold Gordon03_SMCBar_function.
  rewrite !py_div_ok by assumption. cbn [bind].
  eexists. split; [reflexivity |].
  unfold finite_array. apply Forall_map.
  apply Forall_impl with (2 := Hl). intros l Hne.
  unfold np_rdiv. rewrite feq_false by assumption.
  unfold gordon_k, scale_by_Av. destruct Alambda; discriminate.
Qed.

(** C7 (amended).  With [f_A = 1.0] and [Rv_A = X], a mixture whose
    component B carries its own [Rv] attribute, and whose B returns finite
    values at the wavelengths, gives what A gives at [Rv = X]; when B has
    no [Rv] attribute the call raises [ValueError], a single R(V) being
    known.  Symmetrically with [f_A = 0.0] and [Rv_B = X]. *)
Theorem mixture_degenerates :
  forall A B lamb Av Alambda X,
    (forall rb yb,
        Rv_attr B = Some rb ->
        law_function B lamb Av rb Alambda = Ok yb ->
        finite_array yb ->
        MixtureLaw_function A B lamb Av (Some X) Alambda 1 None None
        = law_function A lamb Av X Alambda)
    /\ (Rv_attr B = None ->
        MixtureLaw_function A B lamb Av (Some X) Alambda 1 None None
        = Raise ValueError)
    /\ (forall ra ya,
        Rv_attr A = Some ra ->
        law_function A lamb Av ra Alambda = Ok ya ->
        finite_array ya ->
        MixtureLaw_function A B lamb Av None Alambda 0 (Some X) None
        = law_function B lamb Av X Alambda)
    /\ (Rv_attr A = None ->
        MixtureLaw_function A B lamb Av None Alambda 0 (Some X) None
        = Raise ValueError).
Proof.
  intros A B lamb Av Alambda X.
  unfold MixtureLaw_function, mixture_function.
  cbn [or_attr].
  repeat apply conj.
  - intros rb yb Hattr HB Hfin. rewrite Hattr.
    cbn [count_None filter is_None List.length Nat.leb bind].
    rewrite law_function_normalised.
    destruct (law_function A lamb Av X Alambda) as [ya | e] eqn:HA;
      cbn [bind]; [| reflexivity].
    rewrite law_function_normalised, HB. cbn [bind].
    f_equal. apply np_mix_all_A; [| exact Hfin].
    apply law_function_length in HA, HB. congruence.
  - intros Hattr. now rewrite Hattr.
  - intros ra ya Hattr HA Hfin. rewrite Hattr.
    cbn [count_None filter is_None List.length Nat.leb bind].
    rewrite law_function_normalised, HA. cbn [bind].
    rewrite law_function_normalised.
    destruct (law_function B lamb Av X Alambda) as [yb | e] eqn:HB;
      cbn [bind]; [| reflexivity].
    f_equal. apply np_mix_all_B; [| exact Hfin].
    apply law_function_length in HA, HB. congruence.
  - intros Hattr. now rewrite Hattr.
Qed.

(** * Further properties of the laws *)

(** Settle the comparisons of the goal: those the context decides are
    rewritten, the others are split. *)
Ltac settle_cmps :=
  unfold fge, fgt;
  repeat match goal with
         | |- context [fle ?a ?b] =>
           first [ rewrite (fle_true a b) by lra
                 | rewrite (fle_false a b) by lra
                 | destruct (fle a b) ]
         | |- context [flt ?a ?b] =>
           first [ rewrite (flt_true a b) by lra
                 | rewrite (flt_false a b) by lra
                 | destruct (flt a b) ]
         end.

(** X1.  The successive masked assignments of Cardelli compute the function
    by cases: where two masks overlap, at [x = 3.3] and [x = 8.0], the later
    assignment wins, and the far-UV correction is added on [5.9, 8.0) only. *)
Theorem cardelli_ab_by_cases :
  forall x, cardelli_ab (Some x) = cardelli_piecewise x.
Proof.
  intros x. unfold cardelli_piecewise.
  destruct (Rlt_le_dec x 0.3) as [H1 | H1];
    [rewrite (flt_true x 0.3) by lra
    | rewrite (flt_false x 0.3) by lra;
      destruct (Rlt_le_dec x 1.1) as [H2 | H2];
      [rewrite (flt_true x 1.1) by lra
      | rewrite (flt_false x 1.1) by lra;
        destruct (Rlt_le_dec x 3.3) as [H3 | H3];
        [rewrite (flt_true x 3.3) by lra
        | rewrite (flt_false x 3.3) by lra;
          destruct (Rlt_le_dec x 5.9) as [H4 | H4];
          [rewrite (flt_true x 5.9) by lra
          | rewrite (flt_false x 5.9) by lra;
            destruct (Rlt_le_dec x 8.0) as [H5 | H5];
            [rewrite (flt_true x 8.0) by lra
            | rewrite (flt_false x 8.0) by lra;
              destruct (Rle_lt_dec x 10.0) as [H6 | H6];
              [rewrite (fle_true x 10.0) by lra
              | rewrite (fle_false x 10.0) by lra]]]]]];
    unfold cardelli_ab; cbv zeta; settle_cmps; reflexivity.
Qed.

(** X2.  Calzetti outside [0.0912, 2.2] micrometre: [k] keeps the zero of
    its initialisation, whatever [Rv], so the law returns [0] with
    [Alambda=True] and [10 ** 0 = 1] with [Alambda=False]. *)
Theorem Calzetti_outside_range :
  forall lamb Av Rv i l,
    nth_error (lamb_angstrom lamb) i = Some l ->
    l * 1e-4 < 0.0912 \/ 2.2 < l * 1e-4 ->
    nth_error (Calzetti_function lamb Av Rv true) i = Some (Some 0)
    /\ nth_error (Calzetti_function lamb Av Rv false) i = Some (Some 1).
Proof.
  intros lamb Av Rv i l Hl Hout.
  assert (Hk : calzetti_k Rv l = 0).
  { unfold calzetti_k. cbv zeta.
    destruct Hout; settle_cmps; reflexivity. }
  unfold Calzetti_function.
  rewrite !(map_nth_error _ _ _ Hl). unfold calzetti_value. rewrite Hk.
  split; do 2 f_equal; [ring |].
  replace (0.4 * 0) with 0 by ring. apply Rpower_O. lra.
Qed.

(** ** A zero R(V), a zero wavelength *)

Lemma cardelli_value_finite (Av Rv : R) (Alambda : bool) (l : R) :
  cardelli_value Av Rv Alambda l = None <-> Rv = 0.
Proof.
  unfold cardelli_value.
  destruct (cardelli_ab (np_rdiv 1e4 l)) as [a b]. unfold np_div, feq.
  destruct (Req_dec_T Rv 0) as [H | H], Alambda; simpl;
    split; intros H'; try reflexivity; try assumption;
    try discriminate; contradiction.
Qed.

(** X3.  The laws at [Rv = 0]: Fitzpatrick99 and Gordon03_SMCBar divide by
    it in Python and raise [ZeroDivisionError], and raise it for no other
    R(V); Cardelli divides an array by it, returns, and all its elements
    are non-finite, while for any other R(V) all are finite. *)
Theorem laws_at_zero_Rv :
  forall lamb Av Rv Alambda,
    (Fitzpatrick99_function lamb Av Rv Alambda = Raise ZeroDivisionError
     <-> Rv = 0)
    /\ (forall self_Rv Rv_arg,
        Gordon03_SMCBar_function self_Rv lamb Av Rv_arg Alambda
        = Raise ZeroDivisionError
        <-> match Rv_arg with None => self_Rv | Some r => r end = 0)
    /\ (Rv = 0 ->
        Cardelli_function lamb Av Rv Alambda
        = map (fun _ => None) (lamb_angstrom lamb))
    /\ (Rv <> 0 -> finite_array (Cardelli_function lamb Av Rv Alambda)).
Proof.
  intros lamb Av Rv Alambda. split; [| split; [| split]].
  - split.
    + intros H. destruct (Req_dec_T Rv 0) as [H0 | H0]; [assumption |].
      destruct (Fitzpatrick99_returns lamb Av Rv Alambda H0) as (o & Ho & _).
      congruence.
    + intros H. unfold Fitzpatrick99_function.
      now rewrite py_div_zero.
  - intros self_Rv Rv_arg. split.
    + intros H.
      destruct (Req_dec_T (match Rv_arg with None => self_Rv | Some r => r end)
                          0) as [H0 | H0]; [assumption |].
      destruct (Gordon03_SMCBar_returns self_Rv lamb Av Rv_arg Alambda H0)
        as (o & Ho & _).
      congruence.
    + intros H. unfold Gordon03_SMCBar_function.
      now rewrite py_div_zero.
  - intros H. unfold Cardelli_function. apply map_ext. intros l.
    now apply cardelli_value_finite.
  - intros H. unfold finite_array, Cardelli_function. apply Forall_map.
    apply Forall_forall. intros l _ Hnone.
    now apply cardelli_value_finite in Hnone.
Qed.

Lemma scale_by_Av_None (Av : R) (Alambda : bool) (k : npfloat) :
  scale_by_Av Av Alambda k = None <-> k = None.
Proof.
  unfold scale_by_Av. destruct k, Alambda; simpl; split; intros H;
    try reflexivity; discriminate.
Qed.

Lemma np_rdiv_None (c l : R) : np_rdiv c l = None <-> l = 0.
Proof.
  unfold np_rdiv, feq. destruct (Req_dec_T l 0); split; intros H;
    try reflexivity; try assumption; try discriminate; contradiction.
Qed.

Lemma gordon_k_None (c1 c2 c3 c4 x0 gamma : R) (x : option R) :
  gordon_k c1 c2 c3 c4 x0 gamma x = None <-> x = None.
Proof. destruct x; simpl; split; intros H; try reflexivity; discriminate. Qed.

Lemma fitzpatrick_k_None (Rv c1 c2 c3 c4 x0 gamma : R) (has_uv : bool)
    (x : option R) :
  fitzpatrick_k Rv c1 c2 c3 c4 x0 gamma has_uv x = None <-> x = None.
Proof. destruct x; simpl; split; intros H; try reflexivity; discriminate. Qed.

(** X4.  Fitzpatrick99 and Gordon03_SMCBar, called with an R(V) other than
    zero, return one element per wavelength, and the element at every zero
    wavelength is non-finite: the wavenumber [1e4 / 0] is infinite. *)
Theorem spline_laws_at_zero_wavelength :
  forall lamb Av Rv Alambda,
    Rv <> 0 ->
    (exists out,
        Fitzpatrick99_function lamb Av Rv Alambda = Ok out
        /\ Forall2 (fun l v => l = 0 -> v = None) (lamb_angstrom lamb) out)
    /\ (forall self_Rv,
        exists out,
          Gordon03_SMCBar_function self_Rv lamb Av (Some Rv) Alambda = Ok out
          /\ Forall2 (fun l v => l = 0 -> v = None) (lamb_angstrom lamb) out).
Proof.
  intros lamb Av Rv Alambda HRv.
  assert (Hmap : forall f : R -> npfloat,
             (forall l, l = 0 -> f l = None) ->
             Forall2 (fun l v => l = 0 -> v = None) (lamb_angstrom lamb)
                     (map f (lamb_angstrom lamb))).
  { intros f Hf. induction (lamb_angstrom lamb) as [| l ls IH];
      constructor; [apply Hf | exact IH]. }
  split.
  - unfold Fitzpatrick99_function. rewrite py_div_ok by assumption.
    cbn [bind]. eexists. split; [reflexivity |].
    rewrite map_map. apply Hmap. intros l Hl.
    apply scale_by_Av_None, fitzpatrick_k_None, np_rdiv_None. exact Hl.
  - intros self_Rv. unfold Gordon03_SMCBar_function.
    rewrite !py_div_ok by assumption. cbn [bind].
    eexists. split; [reflexivity |].
    apply Hmap. intros l Hl.
    apply scale_by_Av_None, gordon_k_None, np_rdiv_None. exact Hl.
Qed.

(** ** The R(V) helpers, read backwards *)

Lemma py_div_Ok_inv (a b c : R) : py_div a b = Ok c -> b <> 0 /\ c = a / b.
Proof.
  unfold py_div, feq. destruct (Req_dec_T b 0); intros H;
    [discriminate | injection H as <-; now split].
Qed.

Lemma Rinv_div_neq_0 (d : R) : d <> 0 -> 1 / d <> 0.
Proof.
  intros H. unfold Rdiv. rewrite Rmult_1_l. now apply Rinv_neq_0_compat.
Qed.

Lemma get_Rv_A_Ok_inv (B : law) (Rv f_A Rv_B Rv_A : R) :
  get_Rv_A B (Some Rv) f_A (Some Rv_B) = Ok Rv_A ->
  Rv <> 0 /\ f_A <> 0 /\ Rv_B <> 0
  /\ 1 / (Rv * f_A) - (1 - f_A) / (f_A * Rv_B) <> 0
  /\ Rv_A = 1 / (1 / (Rv * f_A) - (1 - f_A) / (f_A * Rv_B)).
Proof.
  unfold get_Rv_A. cbn [or_attr need_float bind]. intros H.
  apply bind_Ok_inv in H as (t1 & H1 & H).
  apply bind_Ok_inv in H as (t2 & H2 & H).
  apply py_div_Ok_inv in H1 as (Hd1 & ->).
  apply py_div_Ok_inv in H2 as (Hd2 & ->).
  apply py_div_Ok_inv in H as (Hd & ->).
  repeat split; try assumption; intros ->; [apply Hd1 | apply Hd1 | apply Hd2];
    ring.
Qed.

Lemma get_Rv_Ok_inv (A B : law) (Rv_A f_A Rv_B Rv : R) :
  get_Rv A B (Some Rv_A) f_A (Some Rv_B) = Ok Rv ->
  Rv_A <> 0 /\ Rv_B <> 0 /\ f_A / Rv_A + (1 - f_A) / Rv_B <> 0
  /\ Rv = 1 / (f_A / Rv_A + (1 - f_A) / Rv_B).
Proof.
  unfold get_Rv. cbn [or_attr need_float bind]. intros H.
  apply bind_Ok_inv in H as (t1 & H1 & H).
  apply bind_Ok_inv in H as (t2 & H2 & H).
  apply py_div_Ok_inv in H1 as (Hd1 & ->).
  apply py_div_Ok_inv in H2 as (Hd2 & ->).
  apply py_div_Ok_inv in H as (Hd & ->).
  now repeat split.
Qed.

Lemma get_Rv_B_Ok_inv (A : law) (Rv Rv_A f_A Rv_B : R) :
  get_Rv_B A (Some Rv) (Some Rv_A) f_A = Ok Rv_B ->
  Rv <> 0 /\ Rv_A <> 0 /\ 1 / Rv - f_A / Rv_A <> 0
  /\ Rv_B = (1 - f_A) / (1 / Rv - f_A / Rv_A).
Proof.
  unfold get_Rv_B. cbn [or_attr need_float bind]. intros H.
  apply bind_Ok_inv in H as (t1 & H1 & H).
  apply bind_Ok_inv in H as (t2 & H2 & H).
  apply py_div_Ok_inv in H1 as (Hd1 & ->).
  apply py_div_Ok_inv in H2 as (Hd2 & ->).
  apply py_div_Ok_inv in H as (Hd & ->).
  now repeat split.
Qed.

Lemma get_Rv_A_sound (B : law) (Rv Rv_A Rv_B f_A : R) :
  get_Rv_A B (Some Rv) f_A (Some Rv_B) = Ok Rv_A ->
  Rv_A <> 0 /\ 1 / Rv = f_A / Rv_A + (1 - f_A) / Rv_B.
Proof.
  intros H. apply get_Rv_A_Ok_inv in H as (HRv & Hf & HRvB & HD & ->).
  set (D := 1 / (Rv * f_A) - (1 - f_A) / (f_A * Rv_B)) in *.
  split; [now apply Rinv_div_neq_0 |].
  replace (f_A / (1 / D)) with (f_A * D) by now field.
  unfold D. now field.
Qed.

Lemma get_Rv_sound (A B : law) (Rv Rv_A Rv_B f_A : R) :
  get_Rv A B (Some Rv_A) f_A (Some Rv_B) = Ok Rv ->
  Rv <> 0 /\ 1 / Rv = f_A / Rv_A + (1 - f_A) / Rv_B.
Proof.
  intros H. apply get_Rv_Ok_inv in H as (HRvA & HRvB & HS & ->).
  set (S := f_A / Rv_A + (1 - f_A) / Rv_B) in *.
  split; [now apply Rinv_div_neq_0 | now field].
Qed.

Lemma get_Rv_B_sound (A : law) (Rv Rv_A Rv_B f_A : R) :
  get_Rv_B A (Some Rv) (Some Rv_A) f_A = Ok Rv_B ->
  f_A <> 1 ->
  Rv_B <> 0 /\ 1 / Rv = f_A / Rv_A + (1 - f_A) / Rv_B.
Proof.
  intros H Hf. apply get_Rv_B_Ok_inv in H as (HRv & HRvA & HD & ->).
  set (D := 1 / Rv - f_A / Rv_A) in *. split.
  - unfold Rdiv. apply Rmult_integral_contrapositive_currified;
      [lra | now apply Rinv_neq_0_compat].
  - replace ((1 - f_A) / ((1 - f_A) / D)) with D
      by (field; split; [assumption | lra]).
    unfold D. now field.
Qed.

(** X5.  A value returned by a helper fits: with the two values it was
    computed from it satisfies [1/Rv = f_A/Rv_A + (1-f_A)/Rv_B], and it is
    not zero, except that [get_Rv_B] at [f_A = 1] returns [0], for which the
    relation has no meaning. *)
Theorem helpers_satisfy_relation :
  forall A B Rv Rv_A Rv_B f_A,
    (get_Rv_A B (Some Rv) f_A (Some Rv_B) = Ok Rv_A ->
     Rv_A <> 0 /\ 1 / Rv = f_A / Rv_A + (1 - f_A) / Rv_B)
    /\ (get_Rv A B (Some Rv_A) f_A (Some Rv_B) = Ok Rv ->
        Rv <> 0 /\ 1 / Rv = f_A / Rv_A + (1 - f_A) / Rv_B)
    /\ (get_Rv_B A (Some Rv) (Some Rv_A) f_A = Ok Rv_B ->
        (f_A <> 1 ->
         Rv_B <> 0 /\ 1 / Rv = f_A / Rv_A + (1 - f_A) / Rv_B)
        /\ (f_A = 1 -> Rv_B = 0)).
Proof.
  intros A B Rv Rv_A Rv_B f_A. split; [| split].
  - apply get_Rv_A_sound.
  - apply get_Rv_sound.
  - intros H. split.
    + intros Hf. exact (get_Rv_B_sound A Rv Rv_A Rv_B f_A H Hf).
    + intros ->. apply get_Rv_B_Ok_inv in H as (_ & _ & _ & ->).
      unfold Rdiv. ring.
Qed.

Lemma get_Rv_A_of_relation (B : law) (Rv Rv_A Rv_B f_A : R) :
  Rv <> 0 -> Rv_A <> 0 -> Rv_B <> 0 -> f_A <> 0 ->
  1 / Rv = f_A / Rv_A + (1 - f_A) / Rv_B ->
  get_Rv_A B (Some Rv) f_A (Some Rv_B) = Ok Rv_A.
Proof.
  intros HRv HRvA HRvB Hf Hrel.
  assert (HA : 1 / (Rv * f_A) - (1 - f_A) / (f_A * Rv_B) = 1 / Rv_A).
  { transitivity ((1 / Rv - (1 - f_A) / Rv_B) / f_A); [now field |].
    rewrite Hrel. now field. }
  unfold get_Rv_A. cbn [or_attr need_float bind].
  rewrite (py_div_ok 1 (Rv * f_A))
    by now apply Rmult_integral_contrapositive_currified.
  cbn [bind].
  rewrite (py_div_ok (1 - f_A) (f_A * Rv_B))
    by now apply Rmult_integral_contrapositive_currified.
  cbn [bind]. rewrite HA.
  rewrite py_div_ok by now apply Rinv_div_neq_0.
  f_equal. now field.
Qed.

Lemma get_Rv_of_relation (A B : law) (Rv Rv_A Rv_B f_A : R) :
  Rv <> 0 -> Rv_A <> 0 -> Rv_B <> 0 ->
  1 / Rv = f_A / Rv_A + (1 - f_A) / Rv_B ->
  get_Rv A B (Some Rv_A) f_A (Some Rv_B) = Ok Rv.
Proof.
  intros HRv HRvA HRvB Hrel.
  unfold get_Rv. cbn [or_attr need_float bind].
  rewrite !py_div_ok by assumption. cbn [bind]. rewrite <- Hrel.
  rewrite py_div_ok by now apply Rinv_div_neq_0.
  f_equal. now field.
Qed.

Lemma get_Rv_B_of_relation (A : law) (Rv Rv_A Rv_B f_A : R) :
  Rv <> 0 -> Rv_A <> 0 -> Rv_B <> 0 -> f_A <> 1 ->
  1 / Rv = f_A / Rv_A + (1 - f_A) / Rv_B ->
  get_Rv_B A (Some Rv) (Some Rv_A) f_A = Ok Rv_B.
Proof.
  intros HRv HRvA HRvB Hf Hrel.
  assert (HB : 1 / Rv - f_A / Rv_A = (1 - f_A) / Rv_B).
  { rewrite Hrel. now field. }
  unfold get_Rv_B. cbn [or_attr need_float bind].
  rewrite !py_div_ok by assumption. cbn [bind]. rewrite HB.
  rewrite py_div_ok.
  - f_equal. field. split; [assumption | lra].
  - unfold Rdiv. apply Rmult_integral_contrapositive_currified;
      [lra | now apply Rinv_neq_0_compat].
Qed.

(** X6.  Round trips: a value a helper returned, handed to another helper
    together with one of the two original values, gives back the other
    original value.  Going back through [get_Rv_A] needs [f_A <> 0], and
    through [get_Rv_B] needs [f_A <> 1]. *)
Theorem helpers_round_trip :
  forall A B Rv Rv_A Rv_B f_A,
    (get_Rv_A B (Some Rv) f_A (Some Rv_B) = Ok Rv_A ->
     get_Rv A B (Some Rv_A) f_A (Some Rv_B) = Ok Rv
     /\ (f_A <> 1 -> get_Rv_B A (Some Rv) (Some Rv_A) f_A = Ok Rv_B))
    /\ (get_Rv A B (Some Rv_A) f_A (Some Rv_B) = Ok Rv ->
        (f_A <> 0 -> get_Rv_A B (Some Rv) f_A (Some Rv_B) = Ok Rv_A)
        /\ (f_A <> 1 -> get_Rv_B A (Some Rv) (Some Rv_A) f_A = Ok Rv_B))
    /\ (get_Rv_B A (Some Rv) (Some Rv_A) f_A = Ok Rv_B ->
        f_A <> 1 ->
        get_Rv A B (Some Rv_A) f_A (Some Rv_B) = Ok Rv
        /\ (f_A <> 0 -> get_Rv_A B (Some Rv) f_A (Some Rv_B) = Ok Rv_A)).
Proof.
  intros A B Rv Rv_A Rv_B f_A.
  split; [| split].
  - intros H. destruct (get_Rv_A_sound _ _ _ _ _ H) as (HRvA & Hrel).
    apply get_Rv_A_Ok_inv in H as (HRv & Hf & HRvB & _).
    split; [now apply get_Rv_of_relation |].
    intros Hf1. now apply get_Rv_B_of_relation.
  - intros H. destruct (get_Rv_sound _ _ _ _ _ _ H) as (HRv & Hrel).
    apply get_Rv_Ok_inv in H as (HRvA & HRvB & _).
    split; intros Hf;
      [now apply get_Rv_A_of_relation | now apply get_Rv_B_of_relation].
  - intros H Hf1.
    destruct (get_Rv_B_sound _ _ _ _ _ H Hf1) as (HRvB & Hrel).
    apply get_Rv_B_Ok_inv in H as (HRv & HRvA & _).
    split; [now apply get_Rv_of_relation |].
    intros Hf. now apply get_Rv_A_of_relation.
Qed.

(** ** Mixtures: degenerate and extreme cases *)

Lemma np_mix_same (f : R) (a : ndarray) :
  np_add_arr (np_scale f a) (np_scale (1 - f) a) = a.
Proof.
  unfold np_add_arr, np_scale.
  induction a as [| x a IH]; [reflexivity |].
  cbn [map combine fst snd]. f_equal; [| exact IH].
  destruct x as [x |]; simpl; [f_equal; ring | reflexivity].
Qed.

Lemma np_mix_nonfinite_B (s t : R) (a b : ndarray) :
  List.length a = List.length b ->
  Forall (fun v => v = None) b ->
  np_add_arr (np_scale s a) (np_scale t b) = map (fun _ => None) a.
Proof.
  unfold np_add_arr, np_scale.
  revert b. induction a as [| x a IH]; intros [| y b] Hlen Hb;
    try discriminate; [reflexivity |].
  inversion Hb as [| ? ? Hy Hb']; subst.
  cbn [map combine fst snd]. f_equal.
  - destruct x; reflexivity.
  - apply IH; [now injection Hlen | exact Hb'].
Qed.

(** X7.  A mixture of a law with itself, both components at the same
    R(V), is that law, whatever the fraction [f_A] and whatever [Rv]:
    same values, same non-finite elements, same exception. *)
Theorem mixture_of_a_law_with_itself :
  forall A lamb Av Alambda X f_A Rv,
    MixtureLaw_function A A lamb Av (Some X) Alambda f_A (Some X) Rv
    = law_function A lamb Av X Alambda.
Proof.
  intros A lamb Av Alambda X f_A Rv.
  unfold MixtureLaw_function, mixture_function. cbn [or_attr].
  assert (Hcount : Nat.leb 2 (count_None [Some X; Some X; Rv]) = false)
    by (destruct Rv; reflexivity).
  rewrite Hcount. cbn [bind]. rewrite law_function_normalised.
  destruct (law_function A lamb Av X Alambda) as [a | e]; cbn [bind];
    [| reflexivity].
  f_equal. apply np_mix_same.
Qed.

(** X8.  With the effective [Rv] supplied, the extreme fractions do not
    give a pure component.  At [f_A = 0] with [Rv_A] unknown, deriving
    [Rv_A] divides by [Rv * f_A] and raises [ZeroDivisionError].  At
    [f_A = 1] with [Rv_B] unknown, deriving [Rv_B] raises
    [ZeroDivisionError] when [Rv = Rv_A] or one of them is zero, and
    otherwise gives [Rv_B = 0]: Fitzpatrick99 as B then raises
    [ZeroDivisionError], and Cardelli as B makes every element of the
    result non-finite. *)
Theorem mixture_at_extreme_fractions :
  forall A B lamb Av Alambda X r,
    (Rv_attr A = None ->
     MixtureLaw_function A B lamb Av None Alambda 0 (Some X) (Some r)
     = Raise ZeroDivisionError)
    /\ (Rv_attr B = None ->
        r = 0 \/ X = 0 \/ r = X ->
        MixtureLaw_function A B lamb Av (Some X) Alambda 1 None (Some r)
        = Raise ZeroDivisionError)
    /\ (r <> 0 -> X <> 0 -> r <> X ->
        forall a,
          law_function A lamb Av X Alambda = Ok a ->
          MixtureLaw_function A Fitzpatrick99 lamb Av (Some X) Alambda 1
                              None (Some r)
          = Raise ZeroDivisionError
          /\ MixtureLaw_function A Cardelli lamb Av (Some X) Alambda 1
                                 None (Some r)
             = Ok (map (fun _ => None) a)).
Proof.
  intros A B lamb Av Alambda X r.
  unfold MixtureLaw_function, mixture_function. cbn [or_attr].
  split; [| split].
  - intros HA. rewrite HA.
    cbn [count_None filter is_None List.length Nat.leb bind].
    unfold get_Rv_A. cbn [or_attr need_float bind].
    rewrite py_div_zero by ring. reflexivity.
  - intros HB Hcases. rewrite HB.
    cbn [count_None filter is_None List.length Nat.leb bind].
    unfold get_Rv_B. cbn [or_attr need_float bind].
    destruct (Req_dec_T r 0) as [Hr | Hr];
      [now rewrite (py_div_zero 1 r) |].
    rewrite (py_div_ok 1 r) by assumption. cbn [bind].
    destruct (Req_dec_T X 0) as [HX | HX];
      [now rewrite (py_div_zero 1 X) |].
    rewrite (py_div_ok 1 X) by assumption. cbn [bind].
    destruct Hcases as [H | [H | H]]; try contradiction.
    subst X. rewrite py_div_zero by ring. reflexivity.
  - intros Hr HX HrX a Ha.
    assert (HRvB : get_Rv_B A (Some r) (Some X) 1 = Ok 0).
    { unfold get_Rv_B. cbn [or_attr need_float bind].
      rewrite !py_div_ok by assumption. cbn [bind].
      rewrite py_div_ok.
      - f_equal. unfold Rdiv. ring.
      - intros H. apply HrX.
        assert (H' : 1 / r = 1 / X) by lra.
        apply (f_equal (fun z => z * r * X)) in H'.
        field_simplify in H'; lra. }
    cbn [Rv_attr count_None filter is_None List.length Nat.leb bind].
    rewrite HRvB. cbn [bind]. rewrite law_function_normalised, Ha.
    cbn [bind law_function]. split.
    + unfold Fitzpatrick99_function. now rewrite py_div_zero.
    + cbn [bind]. f_equal. apply np_mix_nonfinite_B.
      * unfold Cardelli_function. rewrite length_map, lamb_angstrom_idem.
        now apply law_function_length in Ha.
      * unfold Cardelli_function. apply Forall_map, Forall_forall.
        intros l _. now apply cardelli_value_finite.
Qed.

(** ** Mixtures: what passes from the components to the mixture *)

(** A map on array elements that commutes with the weighted sum. *)
Definition commutes_with_mix (phi : npfloat -> npfloat) : Prop :=
  forall s t x y,
    phi (np_add (np_mul (Some s) x) (np_mul (Some t) y))
    = np_add (np_mul (Some s) (phi x)) (np_mul (Some t) (phi y)).

Lemma np_mul_left_commutes (c : R) : commutes_with_mix (np_mul (Some c)).
Proof.
  intros s t [x |] [y |]; simpl; try reflexivity. f_equal. ring.
Qed.

Lemma np_mul_right_commutes (c : R) :
  commutes_with_mix (fun v => np_mul v (Some c)).
Proof.
  intros s t [x |] [y |]; simpl; try reflexivity. f_equal. ring.
Qed.

Lemma np_add_arr_map (phi : npfloat -> npfloat) (s t : R) (a b : ndarray) :
  commutes_with_mix phi ->
  map phi (np_add_arr (np_scale s a) (np_scale t b))
  = np_add_arr (np_scale s (map phi a)) (np_scale t (map phi b)).
Proof.
  intros Hphi. unfold np_add_arr, np_scale.
  revert b. induction a as [| x a IH]; intros [| y b]; try reflexivity.
  cbn [map combine fst snd]. f_equal; [apply Hphi | apply IH].
Qed.

(** If both components, called in a second way (another [Av], another
    [Alambda]), return the image by [phi] of what they return in a first
    way, so does the mixture. *)
Lemma mixture_function_map (phi : npfloat -> npfloat) (A B : law)
    (fA fB : wavelength -> R -> R -> bool -> result ndarray)
    (Av1 Av2 : R) (Al1 Al2 : bool) :
  commutes_with_mix phi ->
  (forall lamb Rv, fA lamb Av2 Rv Al2 = result_map (map phi) (fA lamb Av1 Rv Al1)) ->
  (forall lamb Rv, fB lamb Av2 Rv Al2 = result_map (map phi) (fB lamb Av1 Rv Al1)) ->
  forall lamb Rv_A f_A Rv_B Rv,
    mixture_function A B fA fB lamb Av2 Rv_A Al2 f_A Rv_B Rv
    = result_map (map phi)
        (mixture_function A B fA fB lamb Av1 Rv_A Al1 f_A Rv_B Rv).
Proof.
  intros Hphi HA HB lamb Rv_A f_A Rv_B Rv. unfold mixture_function.
  destruct (Nat.leb 2 _); [reflexivity |].
  destruct (match or_attr Rv_A A with
            | Some r => Ok r
            | None => get_Rv_A B Rv f_A (or_attr Rv_B B)
            end) as [ra | e]; cbn [bind result_map]; [| reflexivity].
  destruct (match or_attr Rv_B B with
            | Some r => Ok r
            | None => get_Rv_B A Rv (Some ra) f_A
            end) as [rb | e]; cbn [bind result_map]; [| reflexivity].
  rewrite HA.
  destruct (fA _ Av1 ra Al1) as [a | e]; cbn [bind result_map];
    [| reflexivity].
  rewrite HB.
  destruct (fB _ Av1 rb Al1) as [b | e]; cbn [bind result_map];
    [| reflexivity].
  f_equal. symmetry. now apply np_add_arr_map.
Qed.

Lemma law_function_map (phi : npfloat -> npfloat) (Av1 Av2 : R)
    (Al1 Al2 : bool) :
  commutes_with_mix phi ->
  (forall Rv l, cardelli_value Av2 Rv Al2 l = phi (cardelli_value Av1 Rv Al1 l)) ->
  (forall k, scale_by_Av Av2 Al2 k = phi (scale_by_Av Av1 Al1 k)) ->
  forall l, calzetti_free l = true ->
  forall lamb Rv,
    law_function l lamb Av2 Rv Al2
    = result_map (map phi) (law_function l lamb Av1 Rv Al1).
Proof.
  intros Hphi Hc Hs.
  induction l as [| | | | self_Rv | A IHA B IHB name]; intros Hfree lamb Rv;
    cbn [law_function result_map].
  - reflexivity.
  - f_equal. unfold Cardelli_function. rewrite map_map.
    apply map_ext. intros x. apply Hc.
  - discriminate.
  - unfold Fitzpatrick99_function, py_div.
    destruct (feq Rv 0); cbn [bind result_map]; [reflexivity |].
    f_equal. rewrite !map_map. apply map_ext. intros x. apply Hs.
  - unfold Gordon03_SMCBar_function, py_div.
    destruct (feq Rv 0); cbn [bind result_map]; [reflexivity |].
    f_equal. rewrite !map_map. apply map_ext. intros x. apply Hs.
  - cbn [calzetti_free] in Hfree. apply andb_true_iff in Hfree as [HfA HfB].
    apply mixture_function_map; [exact Hphi | |]; intros lamb' Rv'.
    + now apply IHA.
    + now apply IHB.
Qed.

(** X9.  The relation between the two output modes passes to mixtures:
    for every law in which Calzetti does not occur, nested mixtures
    included, the result with [Alambda=False] is [0.4 * ln 10] times the
    result with [Alambda=True], and an exception is the same in both. *)
Theorem mixture_modes :
  forall l, calzetti_free l = true ->
    (forall lamb Av Rv,
        law_function l lamb Av Rv false
        = result_map (np_scale (0.4 * ln 10))
                     (law_function l lamb Av Rv true))
    /\ (forall B, calzetti_free B = true ->
        forall lamb Av Rv_A f_A Rv_B Rv,
          MixtureLaw_function l B lamb Av Rv_A false f_A Rv_B Rv
          = result_map (np_scale (0.4 * ln 10))
              (MixtureLaw_function l B lamb Av Rv_A true f_A Rv_B Rv)).
Proof.
  assert (Hlaw : forall l Av, calzetti_free l = true ->
            forall lamb Rv,
              law_function l lamb Av Rv false
              = result_map (map (np_mul (Some (0.4 * ln 10))))
                           (law_function l lamb Av Rv true)).
  { intros l Av. apply law_function_map.
    - apply np_mul_left_commutes.
    - intros Rv x. apply cardelli_value_modes.
    - intros k. apply scale_by_Av_modes. }
  intros l Hl. split.
  - intros lamb Av Rv. now apply Hlaw.
  - intros B HB lamb Av Rv_A f_A Rv_B Rv. unfold MixtureLaw_function.
    apply (mixture_function_map (np_mul (Some (0.4 * ln 10))));
      [apply np_mul_left_commutes | |]; intros lamb' Rv'; now apply Hlaw.
Qed.

(** X10.  [Av] is a plain factor of every law in which Calzetti does not
    occur, nested mixtures included: the result is the result at [Av = 1]
    multiplied by [Av]. *)
Theorem mixture_scales_with_Av :
  forall l, calzetti_free l = true ->
    (forall lamb Av Rv Alambda,
        law_function l lamb Av Rv Alambda
        = result_map (fun out => np_times out Av)
                     (law_function l lamb 1 Rv Alambda))
    /\ (forall B, calzetti_free B = true ->
        forall lamb Av Rv_A Alambda f_A Rv_B Rv,
          MixtureLaw_function l B lamb Av Rv_A Alambda f_A Rv_B Rv
          = result_map (fun out => np_times out Av)
              (MixtureLaw_function l B lamb 1 Rv_A Alambda f_A Rv_B Rv)).
Proof.
  assert (Hlaw : forall l Av Alambda, calzetti_free l = true ->
            forall lamb Rv,
              law_function l lamb Av Rv Alambda
              = result_map (map (fun v => np_mul v (Some Av)))
                           (law_function l lamb 1 Rv Alambda)).
  { intros l Av Alambda. apply law_function_map.
    - apply np_mul_right_commutes.
    - intros Rv x. apply cardelli_value_Av.
    - intros k. apply scale_by_Av_Av. }
  intros l Hl. split.
  - intros lamb Av Rv Alambda. now apply Hlaw.
  - intros B HB lamb Av Rv_A Alambda f_A Rv_B Rv. unfold MixtureLaw_function.
    apply (mixture_function_map (fun v => np_mul v (Some Av)));
      [apply np_mul_right_commutes | |]; intros lamb' Rv'; now apply Hlaw.
Qed.

Lemma np_add_arr_swap (f : R) (a b : ndarray) :
  np_add_arr (np_scale f a) (np_scale (1 - f) b)
  = np_add_arr (np_scale (1 - f) b) (np_scale (1 - (1 - f)) a).
Proof.
  unfold np_add_arr, np_scale.
  revert b. induction a as [| x a IH]; intros [| y b]; try reflexivity.
  cbn [map combine fst snd]. f_equal; [| apply IH].
  destruct x as [x |], y as [y |]; simpl; try reflexivity. f_equal. ring.
Qed.

(** X11.  Exchanging the two components, with their R(V) and with the
    fraction [f_A] turned into [1 - f_A], does not change the result, as
    soon as one of the two components returns (when both raise, each order
    reports the exception of its first component). *)
Theorem mixture_components_exchange :
  forall A B lamb Av Alambda f_A ra rb Rv,
    (exists a, law_function A lamb Av ra Alambda = Ok a)
    \/ (exists b, law_function B lamb Av rb Alambda = Ok b) ->
    MixtureLaw_function A B lamb Av (Some ra) Alambda f_A (Some rb) Rv
    = MixtureLaw_function B A lamb Av (Some rb) Alambda (1 - f_A) (Some ra)
                          Rv.
Proof.
  intros A B lamb Av Alambda f_A ra rb Rv Hret.
  unfold MixtureLaw_function, mixture_function. cbn [or_attr].
  assert (H1 : Nat.leb 2 (count_None [Some ra; Some rb; Rv]) = false)
    by (destruct Rv; reflexivity).
  assert (H2 : Nat.leb 2 (count_None [Some rb; Some ra; Rv]) = false)
    by (destruct Rv; reflexivity).
  rewrite H1, H2. cbn [bind]. rewrite !law_function_normalised.
  destruct (law_function A lamb Av ra Alambda) as [a | ea] eqn:HA,
           (law_function B lamb Av rb Alambda) as [b | eb] eqn:HB;
    cbn [bind]; rewrite ?law_function_normalised, ?HA, ?HB; cbn [bind];
    try reflexivity.
  - f_equal. apply np_add_arr_swap.
  - destruct Hret as [(a & Ha) | (b & Hb)]; discriminate.
Qed.

(** ** Mixtures that return *)

Lemma finite_where_nonzero_map (f : R -> npfloat) (ls : list R) :
  (forall l, l <> 0 -> f l <> None) ->
  finite_where_nonzero ls (map f ls).
Proof.
  intros Hf. unfold finite_where_nonzero.
  induction ls as [| l ls IH]; constructor; [apply Hf | exact IH].
Qed.

Lemma finite_where_nonzero_mix (s t : R) (ls : list R) (a b : ndarray) :
  finite_where_nonzero ls a ->
  finite_where_nonzero ls b ->
  finite_where_nonzero ls (np_add_arr (np_scale s a) (np_scale t b)).
Proof.
  unfold finite_where_nonzero, np_add_arr, np_scale. intros Ha.
  revert b. induction Ha as [| l x ls a Hx Ha IH]; intros b Hb;
    inversion Hb as [| ? y ? b' Hy Hb']; subst; cbn [map combine fst snd];
    constructor.
  - intros Hl. specialize (Hx Hl). specialize (Hy Hl).
    destruct x, y; try contradiction; discriminate.
  - now apply IH.
Qed.

(** A concrete law called with an R(V) other than zero returns, and is
    finite at every nonzero wavelength. *)
Lemma concrete_law_returns (l : law) (lamb : wavelength) (Av Rv : R)
    (Alambda : bool) :
  is_concrete l = true ->
  Rv <> 0 ->
  exists out, law_function l lamb Av Rv Alambda = Ok out
              /\ finite_where_nonzero (lamb_angstrom lamb) out.
Proof.
  intros Hl HRv. destruct l; try discriminate; cbn [law_function].
  - eexists. split; [reflexivity |]. unfold Cardelli_function.
    apply finite_where_nonzero_map. intros x _ H.
    now apply cardelli_value_finite in H.
  - eexists. split; [reflexivity |]. unfold Calzetti_function.
    apply finite_where_nonzero_map. intros x _. unfold calzetti_value.
    destruct Alambda; discriminate.
  - unfold Fitzpatrick99_function. rewrite py_div_ok by assumption.
    cbn [bind]. eexists. split; [reflexivity |]. rewrite map_map.
    apply finite_where_nonzero_map. intros x Hx H.
    apply scale_by_Av_None, fitzpatrick_k_None, np_rdiv_None in H.
    contradiction.
  - unfold Gordon03_SMCBar_function. rewrite !py_div_ok by assumption.
    cbn [bind]. eexists. split; [reflexivity |].
    apply finite_where_nonzero_map. intros x Hx H.
    apply scale_by_Av_None, gordon_k_None, np_rdiv_None in H.
    contradiction.
Qed.

(** What [MixtureLaw.function] evaluates once the triple is resolved. *)
Lemma function_after_resolution (A B : law)
    (fA fB : wavelength -> R -> R -> bool -> result ndarray)
    (lamb : wavelength) (Av : R) (Rv_A : option R) (Alambda : bool)
    (f_A : R) (Rv_B Rv : option R) (r a b : R) :
  resolve_Rv A B Rv f_A Rv_A Rv_B = Ok (r, a, b) ->
  mixture_function A B fA fB lamb Av Rv_A Alambda f_A Rv_B Rv
  = (ya <- fA (WithUnit (val_in_unit "lamb"%string lamb angstrom))
              Av a Alambda ;;
     yb <- fB (WithUnit (val_in_unit "lamb"%string lamb angstrom))
              Av b Alambda ;;
     Ok (np_add_arr (np_scale f_A ya) (np_scale (1 - f_A) yb))).
Proof.
  unfold resolve_Rv, mixture_function.
  destruct Rv as [r0 |], (or_attr Rv_A A) as [a0 |],
           (or_attr Rv_B B) as [b0 |];
    cbn [count_None filter is_None List.length Nat.leb bind];
    intros H; try discriminate.
  - injection H as <- <- <-. reflexivity.
  - apply bind_Ok_inv in H as (b1 & Hb & H). injection H as <- <- <-.
    rewrite Hb. reflexivity.
  - apply bind_Ok_inv in H as (a1 & Ha & H). injection H as <- <- <-.
    rewrite Ha. reflexivity.
  - apply bind_Ok_inv in H as (r1 & Hr & H). injection H as <- <- <-.
    reflexivity.
Qed.

Lemma mixture_of_concrete_returns (A B : law) (lamb : wavelength)
    (Av a b f_A : R) (Alambda : bool) :
  is_concrete A = true -> is_concrete B = true -> a <> 0 -> b <> 0 ->
  exists out,
    (ya <- law_function A (WithUnit (val_in_unit "lamb"%string lamb angstrom))
                        Av a Alambda ;;
     yb <- law_function B (WithUnit (val_in_unit "lamb"%string lamb angstrom))
                        Av b Alambda ;;
     Ok (np_add_arr (np_scale f_A ya) (np_scale (1 - f_A) yb))) = Ok out
    /\ finite_where_nonzero (lamb_angstrom lamb) out.
Proof.
  intros HA HB Ha Hb. rewrite !law_function_normalised.
  destruct (concrete_law_returns A lamb Av a Alambda HA Ha) as (ya & Hya & Fa).
  destruct (concrete_law_returns B lamb Av b Alambda HB Hb) as (yb & Hyb & Fb).
  rewrite Hya. cbn [bind]. rewrite Hyb. cbn [bind].
  eexists. split; [reflexivity |]. now apply finite_where_nonzero_mix.
Qed.

(** X12.  A parameter vector that [isvalid] accepts can be evaluated: on
    two concrete laws, when [isvalid] returns [True], [function] called
    with the same R(V) values and fraction returns, with one element per
    wavelength, finite at every nonzero wavelength. *)
Theorem valid_mixture_evaluates :
  forall A B lamb Av Av' Alambda Rv f_A Rv_A Rv_B,
    is_concrete A = true ->
    is_concrete B = true ->
    MixtureLaw_isvalid A B Av' Rv f_A Rv_A Rv_B = Ok true ->
    exists out,
      MixtureLaw_function A B lamb Av Rv_A Alambda f_A Rv_B Rv = Ok out
      /\ finite_where_nonzero (lamb_angstrom lamb) out.
Proof.
  intros A B lamb Av Av' Alambda Rv f_A Rv_A Rv_B HA HB Hvalid.
  rewrite isvalid_resolve in Hvalid.
  destruct (resolve_Rv A B Rv f_A Rv_A Rv_B) as [[[r a] b] | e] eqn:Hres;
    [| destruct e; discriminate].
  injection Hvalid as Hvalid. apply valid_triple_test in Hvalid.
  destruct Hvalid as (_ & Hb & Ha & _). unfold in_interval in Ha, Hb.
  unfold MixtureLaw_function.
  rewrite (function_after_resolution _ _ _ _ _ _ _ _ _ _ _ _ _ _ Hres).
  apply mixture_of_concrete_returns; try assumption; lra.
Qed.

(** X13.  Whatever its components and arguments, a mixture that returns
    returns one element per wavelength; an empty array of wavelengths gives
    an empty array. *)
Theorem mixture_output_length :
  forall A B lamb Av Rv_A Alambda f_A Rv_B Rv out,
    MixtureLaw_function A B lamb Av Rv_A Alambda f_A Rv_B Rv = Ok out ->
    List.length out = List.length (lamb_angstrom lamb)
    /\ (lamb_angstrom lamb = [] -> out = []).
Proof.
  intros A B lamb Av Rv_A Alambda f_A Rv_B Rv out H.
  assert (Hlen : List.length out = List.length (lamb_angstrom lamb)).
  { unfold MixtureLaw_function, mixture_function in H.
    destruct (Nat.leb 2 _); [discriminate |].
    apply bind_Ok_inv in H as (ra & _ & H).
    apply bind_Ok_inv in H as (rb & _ & H).
    apply bind_Ok_inv in H as (ya & Hya & H).
    apply bind_Ok_inv in H as (yb & Hyb & H).
    injection H as <-.
    apply law_function_length in Hya, Hyb.
    rewrite lamb_angstrom_idem in Hya, Hyb.
    rewrite np_add_arr_length; unfold np_scale; rewrite !length_map; lia. }
  split; [exact Hlen |].
  intros Hempty. rewrite Hempty in Hlen. now apply length_zero_iff_nil.
Qed.

(** X14.  The documented mixture [Fitzpatrick99() + Gordon03_SMCBar()]
    called with the effective [Rv] and a fraction [f_A]: [Rv_B] comes from
    Gordon's attribute, [Rv_A] is derived, and the call returns, finite at
    every nonzero wavelength, whenever [Rv], [f_A], the attribute and the
    last denominator of [get_Rv_A] are not zero. *)
Theorem Fitzpatrick99_plus_Gordon03_SMCBar :
  forall lamb Av Alambda Rv f_A self_Rv,
    Rv <> 0 -> f_A <> 0 -> self_Rv <> 0 ->
    1 / (Rv * f_A) - (1 - f_A) / (f_A * self_Rv) <> 0 ->
    exists out,
      MixtureLaw_function Fitzpatrick99 (Gordon03_SMCBar self_Rv) lamb Av
                          None Alambda f_A None (Some Rv) = Ok out
      /\ finite_where_nonzero (lamb_angstrom lamb) out.
Proof.
  intros lamb Av Alambda Rv f_A self_Rv HRv Hf Hself HD.
  assert (Hres : resolve_Rv Fitzpatrick99 (Gordon03_SMCBar self_Rv) (Some Rv)
                            f_A None None
                 = Ok (Rv, 1 / (1 / (Rv * f_A) - (1 - f_A) / (f_A * self_Rv)),
                       self_Rv)).
  { unfold resolve_Rv, get_Rv_A. cbn [or_attr Rv_attr need_float bind].
    rewrite (py_div_ok 1 (Rv * f_A))
      by now apply Rmult_integral_contrapositive_currified.
    cbn [bind].
    rewrite (py_div_ok (1 - f_A) (f_A * self_Rv))
      by now apply Rmult_integral_contrapositive_currified.
    cbn [bind]. rewrite py_div_ok by assumption. reflexivity. }
  unfold MixtureLaw_function.
  rewrite (function_after_resolution _ _ _ _ _ _ _ _ _ _ _ _ _ _ Hres).
  apply mixture_of_concrete_returns; try reflexivity; try assumption.
  now apply Rinv_div_neq_0.
Qed.

(** ** Fitzpatrick99 on a whole array *)

(** X15.  Fitzpatrick99 shifts the UV knots of its spline by [Rv] only
    when some wavelength of the input lies in the UV, so its value at an
    optical wavelength depends on the rest of the array: the result on a
    concatenated array is the concatenation of the results when both parts
    agree on containing a UV wavelength.  Gordon03_SMCBar, whose guards
    leave the knots alone, needs no such condition. *)
Theorem Fitzpatrick99_on_concatenation :
  forall lamb1 lamb2 lamb Av Rv Alambda,
    lamb_angstrom lamb = lamb_angstrom lamb1 ++ lamb_angstrom lamb2 ->
    (contains_uv (lamb_angstrom lamb1) = contains_uv (lamb_angstrom lamb2) ->
     Fitzpatrick99_function lamb Av Rv Alambda
     = (o1 <- Fitzpatrick99_function lamb1 Av Rv Alambda ;;
        o2 <- Fitzpatrick99_function lamb2 Av Rv Alambda ;;
        Ok (o1 ++ o2)))
    /\ (forall self_Rv Rv_arg,
        Gordon03_SMCBar_function self_Rv lamb Av Rv_arg Alambda
        = (o1 <- Gordon03_SMCBar_function self_Rv lamb1 Av Rv_arg Alambda ;;
           o2 <- Gordon03_SMCBar_function self_Rv lamb2 Av Rv_arg Alambda ;;
           Ok (o1 ++ o2))).
Proof.
  intros lamb1 lamb2 lamb Av Rv Alambda Happ. split.
  - intros Huv. unfold Fitzpatrick99_function, py_div.
    destruct (feq Rv 0); cbn [bind]; [reflexivity |].
    f_equal. rewrite Happ, !map_app, existsb_app.
    unfold contains_uv in Huv. rewrite Huv, orb_diag. reflexivity.
  - intros self_Rv Rv_arg. unfold Gordon03_SMCBar_function, py_div.
    destruct (feq _ 0); cbn [bind]; [reflexivity |].
    f_equal. now rewrite Happ, map_app.
Qed.

(** ** Type checks *)

(** X16.  [type_checker] against ExtinctionLaw and the constructor of a
    mixture accept the same objects, the instances of ExtinctionLaw and of
    its subclasses, mixtures included; on any other object the first raises
    [TypeError] where the second raises [ValueError]. *)
Theorem type_checker_and_constructor :
  forall A B name,
    ((exists m, MixtureLaw_init A B name = Ok m)
     <-> type_checker "A" A cls_ExtinctionLaw = Ok tt
         /\ type_checker "B" B cls_ExtinctionLaw = Ok tt)
    /\ (forall l, type_checker "A" (PyLaw l) cls_ExtinctionLaw = Ok tt)
    /\ (type_checker "A" A cls_ExtinctionLaw = Raise TypeError
        \/ type_checker "B" B cls_ExtinctionLaw = Raise TypeError
        <-> MixtureLaw_init A B name = Raise ValueError).
Proof.
  intros A B name. rewrite MixtureLaw_init_cases.
  unfold type_checker. rewrite !isNestedInstance_law.
  split; [| split].
  - destruct A, B; cbn [negb]; split;
      try (intros [m Hm]; discriminate);
      try (intros [H1 H2]; discriminate);
      try (intros _; split; reflexivity).
    intros _. now eexists.
  - intros l. rewrite isNestedInstance_law. reflexivity.
  - destruct A, B; cbn [negb]; split;
      try (intros [H | H]; discriminate);
      try (intros _; reflexivity);
      try (intros H; discriminate);
      try (intros _; now left);
      try (intros _; now right).
Qed.

(** ** Keyword arguments *)

Lemma kw_get_cons_other (k k' : string) (v : R) (kw : kwargs) :
  k <> k' -> kw_get k ((k', v) :: kw) = kw_get k kw.
Proof.
  intros H. cbn [kw_get]. apply String.eqb_neq in H. now rewrite H.
Qed.

(** X17.  A keyword that is not a parameter name of [__call__] or of
    [MixtureLaw.function] is swallowed by [**kwargs] and changes nothing: a
    call with [f_bump=0.75] is the call without it, at the default
    [f_A = 0.5].  The keywords [self] and [lamb] collide with the positional
    arguments and raise [TypeError]. *)
Theorem unknown_keywords_are_ignored :
  (forall A B lamb kw k v,
      ~ In k function_keywords ->
      MixtureLaw_call A B lamb ((k, v) :: kw) = MixtureLaw_call A B lamb kw)
  /\ (forall A B lamb kw v,
      kw_get "self" kw = Some v \/ kw_get "lamb" kw = Some v ->
      MixtureLaw_call A B lamb kw = Raise TypeError)
  /\ (forall A B lamb f_bump Rv,
      MixtureLaw_call A B lamb [("Rv"%string, Rv); ("f_bump"%string, f_bump)]
      = MixtureLaw_function A B lamb 1 None true 0.5 None (Some Rv)).
Proof.
  split; [| split].
  - intros A B lamb kw k v Hk. unfold function_keywords in Hk.
    unfold MixtureLaw_call.
    rewrite !kw_get_cons_other; [reflexivity | | | | | | | |];
      intros Heq; apply Hk; rewrite <- Heq; simpl; tauto.
  - intros A B lamb kw v [H | H]; unfold MixtureLaw_call; rewrite H;
      [reflexivity | destruct (kw_get "self" kw); reflexivity].
  - intros A B lamb f_bump Rv. reflexivity.
Qed.

End Laws.

(** * The laws at a concrete unit table *)

Abbreviation angstroms v := (Unitless si_length v).
Abbreviation Cardelli_si := (Cardelli_function si_length si_angstrom si_convert).
Abbreviation law_function_si :=
  (law_function si_length si_angstrom si_convert flat_spline).
Abbreviation MixtureLaw_function_si :=
  (MixtureLaw_function si_length si_angstrom si_convert flat_spline).

(** Decide the comparisons of a goal whose operands are numerals. *)
Ltac fcmp :=
  unfold fge, fgt;
  repeat first
    [ rewrite fle_true by lra | rewrite fle_false by lra
    | rewrite flt_true by lra | rewrite flt_false by lra
    | rewrite feq_true by lra | rewrite feq_false by lra ].

Lemma si_convert_same (u : si_length) : si_convert u u = 1.
Proof. unfold si_convert. destruct u; simpl; lra. Qed.

(** Cardelli's coefficients in the optical branch, away from its ends. *)
Lemma cardelli_ab_optical (x : R) :
  1.1 <= x < 3.3 ->
  cardelli_ab (Some x)
  = (let y := x - 1.82 in
     1 + 0.17699 * y - 0.50447 * y ^ 2 - 0.02427 * y ^ 3 + 0.72085 * y ^ 4
     + 0.01979 * y ^ 5 - 0.77530 * y ^ 6 + 0.32999 * y ^ 7,
     let y := x - 1.82 in
     1.41338 * y + 2.28305 * y ^ 2 + 1.07233 * y ^ 3 - 5.38434 * y ^ 4
     - 0.62251 * y ^ 5 + 5.30260 * y ^ 6 - 2.09002 * y ^ 7).
Proof.
  intros [Hlo Hhi]. unfold cardelli_ab. cbv zeta. fcmp.
  reflexivity.
Qed.

(** Cardelli at 5000 angstrom, i.e. at [x = 2]. *)
Lemma Cardelli_at_5000 (Av Rv : R) (Alambda : bool) :
  Cardelli_si (angstroms (PyFloat 5000)) Av Rv Alambda
  = [cardelli_value Av Rv Alambda 5000]
  /\ cardelli_ab (np_rdiv 1e4 5000)
     = (let y := 1e4 / 5000 - 1.82 in
        1 + 0.17699 * y - 0.50447 * y ^ 2 - 0.02427 * y ^ 3 + 0.72085 * y ^ 4
        + 0.01979 * y ^ 5 - 0.77530 * y ^ 6 + 0.32999 * y ^ 7,
        let y := 1e4 / 5000 - 1.82 in
        1.41338 * y + 2.28305 * y ^ 2 + 1.07233 * y ^ 3 - 5.38434 * y ^ 4
        - 0.62251 * y ^ 5 + 5.30260 * y ^ 6 - 2.09002 * y ^ 7).
Proof.
  split; [reflexivity |].
  unfold np_rdiv. rewrite feq_false by lra.
  apply cardelli_ab_optical. lra.
Qed.

(** C1, counterexample.  Cardelli at 5000 angstrom with [Av = 1] and
    [Rv = 3.1]: the value [v] returned with [Alambda=True] and the value [t]
    returned with [Alambda=False] satisfy [t = 0.4 * ln 10 * v], and not
    [v = 0.4 * ln 10 * t]. *)
Lemma Alambda_is_not_scaled_tau :
  exists v t,
    Cardelli_si (angstroms (PyFloat 5000)) 1 3.1 true = [Some v]
    /\ Cardelli_si (angstroms (PyFloat 5000)) 1 3.1 false = [Some t]
    /\ t = 0.4 * ln 10 * v
    /\ v <> 0.4 * ln 10 * t.
Proof.
  destruct (Cardelli_at_5000 1 3.1 true) as [Hv Hab].
  destruct (Cardelli_at_5000 1 3.1 false) as [Ht _].
  rewrite Hv, Ht. unfold cardelli_value. rewrite Hab. cbv zeta.
  unfold np_div. rewrite feq_false by lra. cbn [np_add np_mul].
  eexists. eexists. split; [reflexivity |]. split; [reflexivity |].
  pose proof ln_10_lt as Hlt. pose proof ln_10_pos as Hpos.
  set (c := 0.4 * ln 10).
  assert (Hc : 0 < c < 1) by (unfold c; lra).
  match goal with
  | |- _ /\ (?e * 1 <> _) => set (v := e)
  end.
  assert (Hv0 : 1 < v) by (unfold v; lra).
  split; [ring |].
  intros Heq.
  assert (Hcc : c * c < 1) by nra.
  assert (Hlt' : c * c * v < v) by nra.
  nra.
Qed.

(** C2, counterexample.  A law plus a float: the float is not a law, and
    the composition raises [ValueError], not [TypeError]. *)
Lemma add_float_raises_ValueError :
  isNestedInstance (PyFloatObj 3) cls_ExtinctionLaw = false
  /\ binary_add (PyLaw Cardelli) (PyFloatObj 3) = Raise ValueError
  /\ binary_add (PyLaw Cardelli) (PyFloatObj 3) <> Raise TypeError.
Proof. repeat split. discriminate. Qed.

(** C2, witness: [None] on either side of a law. *)
Lemma add_builds_mixture_witness :
  binary_add (PyLaw Fitzpatrick99) PyNone = Raise ValueError
  /\ MixtureLaw_init PyNone (PyLaw Cardelli) None = Raise ValueError
  /\ binary_add PyNone (PyLaw Calzetti) = Raise TypeError.
Proof.
  destruct add_builds_mixture as (_ & Hright & Hinit & Hleft).
  split; [| split].
  - apply (Hright Fitzpatrick99 PyNone). reflexivity.
  - apply (Hinit PyNone (PyLaw Cardelli) None). left. reflexivity.
  - apply (Hleft PyNone Calzetti). reflexivity.
Defined.

(** C3, counterexample.  The mixture of (Fitzpatrick99 + Cardelli) and
    Gordon03_SMCBar called with [Rv = 3.1]: [Rv] and, through Gordon's
    attribute, [Rv_B] are known, [Rv_A] is derived, and the call still
    raises [ValueError], from the inner mixture. *)
Lemma nested_mixture_raises_ValueError :
  let A := MixtureLaw Fitzpatrick99 Cardelli "(Fitzpatrick99, Cardelli)" in
  let B := Gordon03_SMCBar 2.74 in
  count_None [or_attr None A; or_attr None B; Some 3.1] = 1%nat
  /\ exists Rv_A, get_Rv_A B (Some 3.1) 0.5 (Some 2.74) = Ok Rv_A
  /\ MixtureLaw_function_si A B (angstroms (PyFloat 5500)) 1 None true 0.5
                            None (Some 3.1)
     = Raise ValueError.
Proof.
  cbv zeta. split; [reflexivity |].
  assert (HA : exists Rv_A,
             get_Rv_A (Gordon03_SMCBar 2.74) (Some 3.1) 0.5 (Some 2.74)
             = Ok Rv_A).
  { unfold get_Rv_A. cbn [or_attr Rv_attr need_float bind].
    rewrite !py_div_ok by lra. cbn [bind].
    rewrite py_div_ok by lra. now eexists. }
  destruct HA as (Rv_A & HA). exists Rv_A. split; [exact HA |].
  unfold MixtureLaw_function, mixture_function.
  cbn [or_attr Rv_attr count_None filter is_None List.length Nat.leb].
  rewrite HA. cbn [bind law_function]. unfold mixture_function.
  reflexivity.
Qed.

(** C3, witness. *)
Lemma function_ValueError_iff_witness :
  is_mixture Cardelli = false
  /\ is_mixture (Gordon03_SMCBar 2.74) = false
  /\ (MixtureLaw_function_si Cardelli (Gordon03_SMCBar 2.74)
        (angstroms (PyFloat 5500)) 1 None true 0.5 None None
      = Raise ValueError
      <-> (2 <= count_None [or_attr None Cardelli;
                            or_attr None (Gordon03_SMCBar 2.74); None])%nat)
  /\ MixtureLaw_function_si Cardelli (Gordon03_SMCBar 2.74)
       (angstroms (PyFloat 5500)) 1 None true 0.5 None (Some 3.1)
     = (a <- get_Rv_A (Gordon03_SMCBar 2.74) (Some 3.1) 0.5 (Some 2.74) ;;
        weighted_sum si_length si_angstrom si_convert flat_spline Cardelli
          (Gordon03_SMCBar 2.74) (angstroms (PyFloat 5500)) 1 true 0.5 a
          2.74).
Proof.
  destruct (function_ValueError_iff si_length si_angstrom si_convert
              flat_spline Cardelli (Gordon03_SMCBar 2.74)
              (angstroms (PyFloat 5500)) 1 None true 0.5 None None)
    as (Hiff & _).
  destruct (function_ValueError_iff si_length si_angstrom si_convert
              flat_spline Cardelli (Gordon03_SMCBar 2.74)
              (angstroms (PyFloat 5500)) 1 None true 0.5 None (Some 3.1))
    as (_ & Hderive & _).
  split; [reflexivity |]. split; [reflexivity |]. split.
  - apply Hiff; reflexivity.
  - apply (Hderive 3.1 2.74); reflexivity.
Defined.

(** C4, witness: [Rv_A = 2], [Rv_B = 6], [f_A = 0.5] give [Rv = 3]. *)
Lemma get_Rv_mutually_inverse_witness :
  get_Rv_A Cardelli (Some 3) 0.5 (Some 6) = Ok 2
  /\ get_Rv Cardelli Cardelli (Some 2) 0.5 (Some 6) = Ok 3
  /\ get_Rv_B Cardelli (Some 3) (Some 2) 0.5 = Ok 6.
Proof.
  apply (get_Rv_mutually_inverse Cardelli Cardelli 3 2 6 0.5); lra.
Defined.

(** C5, counterexample.  With [Rv = 0.0], outside [2.0, 6.0], and with
    [f_A = 2.0], outside [0, 1], [isvalid] can raise [ZeroDivisionError]
    while it derives the missing value, instead of returning [False]. *)
Lemma isvalid_raises_ZeroDivisionError :
  MixtureLaw_isvalid Cardelli Cardelli None (Some 0) 0.5 (Some 3) None
  = Raise ZeroDivisionError
  /\ MixtureLaw_isvalid Cardelli Cardelli None (Some 3) 2 None (Some (-3))
     = Raise ZeroDivisionError.
Proof.
  unfold MixtureLaw_isvalid.
  cbn [or_attr Rv_attr count_None filter is_None List.length Nat.leb bind].
  split.
  - unfold get_Rv_B. cbn [or_attr need_float bind].
    now rewrite py_div_zero.
  - unfold get_Rv_A. cbn [or_attr need_float bind].
    rewrite !py_div_ok by lra. cbn [bind].
    rewrite py_div_zero by lra. reflexivity.
Qed.

(** C5, witness: an effective R(V) of 7 is resolved and refused; a lone
    R(V) is refused; an effective R(V) of 0 makes [get_Rv_B] divide by
    zero. *)
Lemma isvalid_spec_witness :
  MixtureLaw_isvalid Cardelli Cardelli None (Some 7) 0.5 (Some 3.1)
                     (Some 3.1) = Ok false
  /\ MixtureLaw_isvalid Cardelli Cardelli None (Some 3.1) 0.5 None None
     = Ok false
  /\ MixtureLaw_isvalid Cardelli Cardelli None (Some 0) 0.5 (Some 3) None
     = Raise ZeroDivisionError.
Proof.
  destruct (isvalid_spec Cardelli Cardelli None (Some 7) 0.5 (Some 3.1)
                         (Some 3.1)) as (_ & Hout & _).
  destruct (isvalid_spec Cardelli Cardelli None (Some 3.1) 0.5 None None)
    as (_ & _ & Hfew & _).
  destruct (isvalid_spec Cardelli Cardelli None (Some 0) 0.5 (Some 3) None)
    as (_ & _ & _ & _ & _ & Hraise).
  split; [| split].
  - apply (Hout (7, 3.1, 3.1)); [reflexivity |].
    unfold valid_triple, in_interval. intros (_ & _ & _ & H). lra.
  - apply Hfew. apply Nat.le_refl.
  - destruct (Hraise 0 3 0) as (_ & _ & HB).
    apply HB; try reflexivity.
    unfold get_Rv_B. cbn [or_attr need_float bind].
    now rewrite py_div_zero.
Defined.

Lemma wavenumber_outside_40000 : wavenumber_outside 40000.
Proof.
  unfold wavenumber_outside, np_rdiv. rewrite feq_false by lra.
  left. lra.
Qed.

(** C6, counterexample.  At 40000 angstrom the wavenumber is [0.25], below
    [0.3]; with [Rv = 0.0] the element [b / Rv] is [0 / 0] and Cardelli
    returns a non-finite value, not [0]. *)
Lemma Cardelli_outside_at_Rv_0 :
  wavenumber_outside 40000
  /\ Cardelli_si (angstroms (PyFloat 40000)) 1 0 true = [None]
  /\ nth_error (Cardelli_si (angstroms (PyFloat 40000)) 1 0 true) 0
     <> Some (Some 0).
Proof.
  split; [exact wavenumber_outside_40000 |].
  assert (H : Cardelli_si (angstroms (PyFloat 40000)) 1 0 true = [None]).
  { unfold Cardelli_function, lamb_angstrom.
    cbn [val_in_unit magnitude as_array map]. f_equal.
    unfold cardelli_value.
    rewrite (cardelli_ab_outside 40000 wavenumber_outside_40000).
    unfold np_div. rewrite feq_true by reflexivity. reflexivity. }
  split; [exact H |]. rewrite H. discriminate.
Qed.

(** C6, witness: the first of three wavelengths, with [Rv = 3.1]. *)
Lemma Cardelli_zero_outside_witness :
  nth_error (Cardelli_si (angstroms (NdArray [40000; 5000; 900])) 1 3.1 true)
            0
  = Some (Some 0).
Proof.
  apply (Cardelli_zero_outside si_length si_angstrom si_convert
           (angstroms (NdArray [40000; 5000; 900])) 1 3.1 true 0%nat 40000).
  - reflexivity.
  - exact wavenumber_outside_40000.
  - lra.
Defined.

(** C7, counterexample.  Cardelli mixed with Cardelli, [f_A = 1.0] and
    [Rv_A = 3.1]: neither [Rv] nor [Rv_B] is known, the mixture raises
    [ValueError], while Cardelli alone returns. *)
Lemma mixture_without_Rv_B_raises :
  MixtureLaw_function_si Cardelli Cardelli (angstroms (PyFloat 5000)) 1
                         (Some 3.1) true 1 None None
  = Raise ValueError
  /\ law_function_si Cardelli (angstroms (PyFloat 5000)) 1 3.1 true
     = Ok (Cardelli_si (angstroms (PyFloat 5000)) 1 3.1 true).
Proof. split; reflexivity. Qed.

(** C7, witness: Cardelli mixed with Gordon03_SMCBar at 5000 angstrom. *)
Lemma mixture_degenerates_witness :
  MixtureLaw_function_si Cardelli (Gordon03_SMCBar 2.74)
                         (angstroms (PyFloat 5000)) 1 (Some 3.1) true 1
                         None None
  = law_function_si Cardelli (angstroms (PyFloat 5000)) 1 3.1 true.
Proof.
  destruct (Gordon03_SMCBar_finite si_length si_angstrom si_convert
              flat_spline 2.74 (angstroms (PyFloat 5000)) 1 (Some 2.74) true)
    as (yb & Hyb & Hfin).
  - simpl. lra.
  - repeat constructor. simpl. lra.
  - destruct (mixture_degenerates si_length si_angstrom si_convert
                si_convert_same flat_spline Cardelli (Gordon03_SMCBar 2.74)
                (angstroms (PyFloat 5000)) 1 true 3.1) as (HA & _).
    apply (HA 2.74 yb); [reflexivity | exact Hyb | exact Hfin].
Defined.

(** C8, counterexample.  A float has the shape [()]; the array returned for
    it has the shape [(1,)]. *)
Lemma scalar_input_shape :
  shape (magnitude si_length
           (val_in_unit si_length si_convert "lamb"
              (angstroms (PyFloat 5500)) si_angstrom)) = []
  /\ ndarray_shape (Cardelli_si (angstroms (PyFloat 5500)) 1 3.1 true)
     = [1%nat].
Proof. split; reflexivity. Qed.

(** C8, witness: Fitzpatrick99 on an array of two wavelengths. *)
Lemma output_shape_witness :
  exists out,
    Fitzpatrick99_function si_length si_angstrom si_convert flat_spline
      (angstroms (NdArray [5000; 2000])) 1 3.1 true = Ok out
    /\ ndarray_shape out = [2%nat].
Proof.
  destruct (output_shape si_length si_angstrom si_convert flat_spline
              (angstroms (NdArray [5000; 2000])) 1 3.1 true)
    as (_ & _ & HF & _).
  apply HF. lra.
Defined.

(** * Instances of the further properties *)

Abbreviation Calzetti_si := (Calzetti_function si_length si_angstrom si_convert).
Abbreviation Fitzpatrick99_si :=
  (Fitzpatrick99_function si_length si_angstrom si_convert flat_spline).
Abbreviation lamb_si := (lamb_angstrom si_length si_angstrom si_convert).

(** X2, witness: 500 angstrom is 0.05 micrometre. *)
Lemma Calzetti_outside_range_witness :
  nth_error (Calzetti_si (angstroms (NdArray [500; 5000; 30000])) 1 4.05 true)
            0 = Some (Some 0)
  /\ nth_error (Calzetti_si (angstroms (NdArray [500; 5000; 30000])) 1 4.05
                            false) 0 = Some (Some 1).
Proof.
  apply (Calzetti_outside_range si_length si_angstrom si_convert
           (angstroms (NdArray [500; 5000; 30000])) 1 4.05 0%nat 500).
  - reflexivity.
  - left. lra.
Defined.

(** X4, witness: an array with a zero wavelength. *)
Lemma spline_laws_at_zero_wavelength_witness :
  exists out,
    Fitzpatrick99_si (angstroms (NdArray [5000; 0])) 1 3.1 true = Ok out
    /\ Forall2 (fun l v => l = 0 -> v = None)
               (lamb_si (angstroms (NdArray [5000; 0]))) out.
Proof.
  destruct (spline_laws_at_zero_wavelength si_length si_angstrom si_convert
              flat_spline (angstroms (NdArray [5000; 0])) 1 3.1 true)
    as [H _].
  - lra.
  - exact H.
Defined.

Lemma get_Rv_A_3_6 : get_Rv_A Cardelli (Some 3) 0.5 (Some 6) = Ok 2.
Proof. apply get_Rv_A_of_relation; lra. Qed.

(** X5, witness. *)
Lemma helpers_satisfy_relation_witness :
  2 <> 0 /\ 1 / 3 = 0.5 / 2 + (1 - 0.5) / 6.
Proof.
  destruct (helpers_satisfy_relation Cardelli Cardelli 3 2 6 0.5) as (H & _).
  apply H. exact get_Rv_A_3_6.
Defined.

(** X6, witness. *)
Lemma helpers_round_trip_witness :
  get_Rv Cardelli Cardelli (Some 2) 0.5 (Some 6) = Ok 3.
Proof.
  destruct (helpers_round_trip Cardelli Cardelli 3 2 6 0.5) as (H & _).
  apply H. exact get_Rv_A_3_6.
Defined.

(** X7, witness. *)
Lemma mixture_of_a_law_with_itself_witness :
  MixtureLaw_function_si Cardelli Cardelli (angstroms (PyFloat 5000)) 1
                         (Some 3.1) true 0.3 (Some 3.1) None
  = law_function_si Cardelli (angstroms (PyFloat 5000)) 1 3.1 true.
Proof.
  apply (mixture_of_a_law_with_itself si_length si_angstrom si_convert
           si_convert_same flat_spline).
Defined.

(** X8, witness: [f_A = 1], [Rv_A = 3.1], [Rv = 4], B without R(V). *)
Lemma mixture_at_extreme_fractions_witness :
  MixtureLaw_function_si Cardelli Fitzpatrick99 (angstroms (PyFloat 5000)) 1
                         (Some 3.1) true 1 None (Some 4)
  = Raise ZeroDivisionError
  /\ MixtureLaw_function_si Cardelli Cardelli (angstroms (PyFloat 5000)) 1
                            (Some 3.1) true 1 None (Some 4)
     = Ok [None].
Proof.
  destruct (mixture_at_extreme_fractions si_length si_angstrom si_convert
              si_convert_same flat_spline Cardelli Cardelli
              (angstroms (PyFloat 5000)) 1 true 3.1 4) as (_ & _ & H).
  apply (H ltac:(lra) ltac:(lra) ltac:(lra)
           (Cardelli_si (angstroms (PyFloat 5000)) 1 3.1 true)).
  reflexivity.
Defined.

(** X9, witness. *)
Lemma mixture_modes_witness :
  calzetti_free (MixtureLaw Cardelli (Gordon03_SMCBar 2.74) "mix") = true
  /\ law_function_si (MixtureLaw Cardelli (Gordon03_SMCBar 2.74) "mix")
                     (angstroms (PyFloat 5000)) 1 3.1 false
     = result_map (np_scale (0.4 * ln 10))
         (law_function_si (MixtureLaw Cardelli (Gordon03_SMCBar 2.74) "mix")
                          (angstroms (PyFloat 5000)) 1 3.1 true).
Proof.
  split; [reflexivity |].
  destruct (mixture_modes si_length si_angstrom si_convert flat_spline
              (MixtureLaw Cardelli (Gordon03_SMCBar 2.74) "mix") eq_refl)
    as [H _].
  apply H.
Defined.

(** X10, witness. *)
Lemma mixture_scales_with_Av_witness :
  law_function_si (MixtureLaw Cardelli (Gordon03_SMCBar 2.74) "mix")
                  (angstroms (PyFloat 5000)) 2 3.1 true
  = result_map (fun out => np_times out 2)
      (law_function_si (MixtureLaw Cardelli (Gordon03_SMCBar 2.74) "mix")
                       (angstroms (PyFloat 5000)) 1 3.1 true).
Proof.
  destruct (mixture_scales_with_Av si_length si_angstrom si_convert
              flat_spline (MixtureLaw Cardelli (Gordon03_SMCBar 2.74) "mix")
              eq_refl) as [H _].
  apply H.
Defined.

(** X11, witness. *)
Lemma mixture_components_exchange_witness :
  MixtureLaw_function_si Cardelli Calzetti (angstroms (PyFloat 5000)) 1
                         (Some 3.1) true 0.25 (Some 4.05) None
  = MixtureLaw_function_si Calzetti Cardelli (angstroms (PyFloat 5000)) 1
                           (Some 4.05) true (1 - 0.25) (Some 3.1) None.
Proof.
  apply (mixture_components_exchange si_length si_angstrom si_convert
           si_convert_same flat_spline).
  left. eexists. reflexivity.
Defined.

Lemma isvalid_all_31 :
  MixtureLaw_isvalid Cardelli (Gordon03_SMCBar 2.74) None (Some 3.1) 0.5
                     (Some 3.1) (Some 3.1) = Ok true.
Proof.
  unfold MixtureLaw_isvalid.
  cbn [or_attr count_None filter is_None List.length Nat.leb bind].
  f_equal. apply valid_triple_test. unfold valid_triple, in_interval. lra.
Qed.

(** X12, witness. *)
Lemma valid_mixture_evaluates_witness :
  exists out,
    MixtureLaw_function_si Cardelli (Gordon03_SMCBar 2.74)
      (angstroms (NdArray [5000; 12000])) 1 (Some 3.1) true 0.5 (Some 3.1)
      (Some 3.1) = Ok out
    /\ finite_where_nonzero (lamb_si (angstroms (NdArray [5000; 12000]))) out.
Proof.
  apply (valid_mixture_evaluates si_length si_angstrom si_convert
           si_convert_same flat_spline Cardelli (Gordon03_SMCBar 2.74)
           (angstroms (NdArray [5000; 12000])) 1 None true (Some 3.1) 0.5
           (Some 3.1) (Some 3.1)).
  - reflexivity.
  - reflexivity.
  - exact isvalid_all_31.
Defined.

(** X13, witness: an empty array of wavelengths. *)
Lemma mixture_output_length_witness :
  exists out,
    MixtureLaw_function_si Cardelli Calzetti (angstroms (NdArray [])) 1
                           (Some 3.1) true 0.5 (Some 4.05) None = Ok out
    /\ List.length out = 0%nat.
Proof.
  eexists. split; [reflexivity |].
  eapply proj1.
  eapply (mixture_output_length si_length si_angstrom si_convert
            si_convert_same flat_spline Cardelli Calzetti
            (angstroms (NdArray [])) 1 (Some 3.1) true 0.5 (Some 4.05) None).
  reflexivity.
Defined.

(** X14, witness: [Rv = 3.1], [f_A = 0.5], Gordon's default 2.74. *)
Lemma Fitzpatrick99_plus_Gordon03_SMCBar_witness :
  exists out,
    MixtureLaw_function_si Fitzpatrick99 (Gordon03_SMCBar 2.74)
      (angstroms (NdArray [5000; 1500])) 1 None true 0.5 None (Some 3.1)
    = Ok out
    /\ finite_where_nonzero (lamb_si (angstroms (NdArray [5000; 1500]))) out.
Proof.
  apply (Fitzpatrick99_plus_Gordon03_SMCBar si_length si_angstrom si_convert
           si_convert_same flat_spline); lra.
Defined.

(** X15, witness: two optical wavelengths. *)
Lemma Fitzpatrick99_on_concatenation_witness :
  Fitzpatrick99_si (angstroms (NdArray [5000; 6000])) 1 3.1 true
  = (o1 <- Fitzpatrick99_si (angstroms (NdArray [5000])) 1 3.1 true ;;
     o2 <- Fitzpatrick99_si (angstroms (NdArray [6000])) 1 3.1 true ;;
     Ok (o1 ++ o2)).
Proof.
  destruct (Fitzpatrick99_on_concatenation si_length si_angstrom si_convert
              flat_spline (angstroms (NdArray [5000]))
              (angstroms (NdArray [6000]))
              (angstroms (NdArray [5000; 6000])) 1 3.1 true eq_refl)
    as [H _].
  apply H.
  unfold contains_uv, lamb_angstrom, np_rdiv, x_ge, xcutuv.
  cbn [val_in_unit magnitude as_array map existsb].
  fcmp. reflexivity.
Defined.

(** X17, witness: a keyword [f_bump]. *)
Lemma unknown_keywords_are_ignored_witness :
  MixtureLaw_call si_length si_angstrom si_convert flat_spline Fitzpatrick99
    (Gordon03_SMCBar 2.74) (angstroms (PyFloat 5000))
    [("f_bump"%string, 0.75); ("Rv"%string, 3.1)]
  = MixtureLaw_call si_length si_angstrom si_convert flat_spline Fitzpatrick99
      (Gordon03_SMCBar 2.74) (angstroms (PyFloat 5000)) [("Rv"%string, 3.1)].
Proof.
  destruct (unknown_keywords_are_ignored si_length si_angstrom si_convert
              flat_spline) as (H & _).
  apply H. unfold function_keywords. simpl.
  intros [H' | [H' | [H' | [H' | [H' | [H' | [H' | [H' | []]]]]]]]];
    discriminate.
Defined.
